(** * The prediction-serving request lifecycle of [src/api/main.py]

    A shallow embedding of the FastAPI service that serves the California
    Housing model: the pydantic request schema [HousingFeatures], the
    [MLModelService] (model loading, feature engineering, prediction,
    prediction log) and the HTTP endpoints built on it. *)

From Stdlib Require Import ZArith QArith Qround Qabs Lia Lqa Sorted.
From stdpp Require Import base option list gmap strings.

Local Open Scope Q_scope.

(** ** Python floats

    A float is a finite number or one of the three special values of
    IEEE 754.  Finite values are exact rationals: rounding error and
    overflow of the binary64 format, and the sign of zero, are outside this
    model.  The special values are kept because pandas arithmetic yields
    them instead of raising, and because every comparison with [nan] is
    false. *)
Module PyFloat.

Inductive t : Type :=
| Fin (q : Q)
| PInf
| NInf
| NaN.

Definition isnan (x : t) : bool :=
  match x with NaN => true | _ => false end.

Definition isinf (x : t) : bool :=
  match x with PInf | NInf => true | _ => false end.

Definition isfinite (x : t) : bool :=
  match x with Fin _ => true | _ => false end.

Definition Qlt_bool (a b : Q) : bool := negb (Qle_bool b a).

(** [x <= y] *)
Definition le (x y : t) : bool :=
  match x, y with
  | NaN, _ | _, NaN => false
  | NInf, _ => true
  | _, PInf => true
  | Fin a, Fin b => Qle_bool a b
  | _, _ => false
  end.

(** [x < y] *)
Definition lt (x y : t) : bool :=
  match x, y with
  | NaN, _ | _, NaN => false
  | NInf, NInf => false
  | PInf, _ => false
  | NInf, _ => true
  | Fin _, PInf => true
  | Fin _, NInf => false
  | Fin a, Fin b => Qlt_bool a b
  end.

(** [x >= y] and [x > y] *)
Definition ge (x y : t) : bool := le y x.
Definition gt (x y : t) : bool := lt y x.

(** [x == y] *)
Definition eqb (x y : t) : bool :=
  match x, y with
  | Fin a, Fin b => Qeq_bool a b
  | PInf, PInf => true
  | NInf, NInf => true
  | _, _ => false
  end.

Definition sign_inf (positive : bool) : t := if positive then PInf else NInf.

Definition Qpositive (a : Q) : bool := Qlt_bool 0 a.
Definition Qzero (a : Q) : bool := Qeq_bool a 0.

(** [x + y] *)
Definition add (x y : t) : t :=
  match x, y with
  | NaN, _ | _, NaN => NaN
  | PInf, NInf | NInf, PInf => NaN
  | PInf, _ | _, PInf => PInf
  | NInf, _ | _, NInf => NInf
  | Fin a, Fin b => Fin (a + b)
  end.

(** An infinity times a finite [a]. *)
Definition scale_inf (positive : bool) (a : Q) : t :=
  if Qzero a then NaN
  else sign_inf (Bool.eqb positive (Qpositive a)).

(** [x * y] *)
Definition mul (x y : t) : t :=
  match x, y with
  | NaN, _ | _, NaN => NaN
  | Fin a, Fin b => Fin (a * b)
  | PInf, Fin a | Fin a, PInf => scale_inf true a
  | NInf, Fin a | Fin a, NInf => scale_inf false a
  | PInf, PInf | NInf, NInf => PInf
  | PInf, NInf | NInf, PInf => NInf
  end.

(** [x / y] as numpy and pandas compute it: a division by zero does not
    raise, it gives an infinity, or [nan] for [0 / 0]. *)
Definition div (x y : t) : t :=
  match x, y with
  | NaN, _ | _, NaN => NaN
  | Fin a, Fin b =>
      if Qzero b then
        if Qzero a then NaN else sign_inf (Qpositive a)
      else Fin (a / b)
  | Fin _, (PInf | NInf) => Fin 0
  | PInf, Fin b => sign_inf (orb (Qzero b) (Qpositive b))
  | NInf, Fin b => sign_inf (negb (orb (Qzero b) (Qpositive b)))
  | (PInf | NInf), (PInf | NInf) => NaN
  end.

(** Rounding of a rational to the nearest integer, ties to even. *)
Definition rint (q : Q) : Z :=
  let f := Qfloor q in
  match Qcompare (q - inject_Z f) (1 # 2) with
  | Lt => f
  | Gt => (f + 1)%Z
  | Eq => if Z.even f then f else (f + 1)%Z
  end.

(** [round(x, 2)]: the value is scaled by 100, rounded to the nearest
    integer with ties to even, and scaled back; [nan] and the infinities
    are returned as they are. *)
Definition round2 (x : t) : t :=
  match x with
  | Fin q => Fin (inject_Z (rint (q * 100)) / 100)
  | _ => x
  end.

End PyFloat.

Abbreviation pyfloat := PyFloat.t.
Abbreviation Fin := PyFloat.Fin.
Abbreviation PInf := PyFloat.PInf.
Abbreviation NInf := PyFloat.NInf.
Abbreviation NaN := PyFloat.NaN.

(** ** Request validation (pydantic)

    The body of a request is a JSON object with numeric members.  A field
    declared with [Field(..., ge=lo, le=hi)] is required and carries the two
    bound checks; a [@validator] of the class runs after them.  The
    validators of one field run in order and stop at the first one that
    raises, so a field contributes at most one error; the errors of the
    different fields are all collected, in the order of declaration.  A
    bound is checked as [not v >= lo] and [not v <= hi], so that [nan]
    fails the lower bound. *)
Module Pydantic.

Inductive ErrorType : Type :=
| Missing                       (* field required *)
| NumberNotGe (limit : Q)       (* ensure this value is greater than or equal to limit *)
| NumberNotLe (limit : Q)       (* ensure this value is less than or equal to limit *)
| ValueError (msg : string).    (* raised by a validator of the class *)

(** One entry of a validation error: the field and what failed. *)
Definition ErrorWrapper : Type := string * ErrorType.

Definition Validator : Type := pyfloat -> ErrorType + pyfloat.

Record FieldInfo : Type := {
  name : string;
  ge : Q;
  le : Q;
  class_validators : list Validator
}.

(** The bound checks of a constrained number: the lower bound first. *)
Definition number_size_validator (lo hi : Q) : Validator := fun v =>
  if negb (PyFloat.ge v (Fin lo)) then inl (NumberNotGe lo)
  else if negb (PyFloat.le v (Fin hi)) then inl (NumberNotLe hi)
  else inr v.

Fixpoint apply_validators (vs : list Validator) (v : pyfloat)
  : ErrorType + pyfloat :=
  match vs with
  | [] => inr v
  | f :: vs' =>
      match f v with
      | inl e => inl e
      | inr v' => apply_validators vs' v'
      end
  end.

Definition validators (fi : FieldInfo) : list Validator :=
  number_size_validator (ge fi) (le fi) :: class_validators fi.

Definition validate (fi : FieldInfo) (body : gmap string pyfloat)
  : ErrorWrapper + pyfloat :=
  match body !! name fi with
  | None => inl (name fi, Missing)
  | Some v =>
      match apply_validators (validators fi) v with
      | inl e => inl (name fi, e)
      | inr v' => inr v'
      end
  end.

(** The errors among the results of the fields, in order. *)
Fixpoint errors (rs : list (ErrorWrapper + pyfloat)) : list ErrorWrapper :=
  match rs with
  | [] => []
  | inl e :: rs' => e :: errors rs'
  | inr _ :: rs' => errors rs'
  end.

End Pydantic.

(** *** [class HousingFeatures(BaseModel)] *)

Record HousingFeatures : Type := {
  MedInc : pyfloat;
  HouseAge : pyfloat;
  AveRooms : pyfloat;
  AveBedrms : pyfloat;
  Population : pyfloat;
  AveOccup : pyfloat;
  Latitude : pyfloat;
  Longitude : pyfloat
}.

(** [@validator('AveOccup')] *)
Definition validate_ave_occup : Pydantic.Validator := fun v =>
  if PyFloat.le v (Fin 0)
  then inl (Pydantic.ValueError "AveOccup must be greater than 0")
  else inr v.

Definition MedInc_field : Pydantic.FieldInfo :=
  {| Pydantic.name := "MedInc"; Pydantic.ge := 0; Pydantic.le := 15;
     Pydantic.class_validators := [] |}.
Definition HouseAge_field : Pydantic.FieldInfo :=
  {| Pydantic.name := "HouseAge"; Pydantic.ge := 0; Pydantic.le := 100;
     Pydantic.class_validators := [] |}.
Definition AveRooms_field : Pydantic.FieldInfo :=
  {| Pydantic.name := "AveRooms"; Pydantic.ge := 1; Pydantic.le := 20;
     Pydantic.class_validators := [] |}.
Definition AveBedrms_field : Pydantic.FieldInfo :=
  {| Pydantic.name := "AveBedrms"; Pydantic.ge := 0; Pydantic.le := 5;
     Pydantic.class_validators := [] |}.
Definition Population_field : Pydantic.FieldInfo :=
  {| Pydantic.name := "Population"; Pydantic.ge := 0; Pydantic.le := 50000;
     Pydantic.class_validators := [] |}.
Definition AveOccup_field : Pydantic.FieldInfo :=
  {| Pydantic.name := "AveOccup"; Pydantic.ge := 0.5; Pydantic.le := 20;
     Pydantic.class_validators := [validate_ave_occup] |}.
Definition Latitude_field : Pydantic.FieldInfo :=
  {| Pydantic.name := "Latitude"; Pydantic.ge := 32; Pydantic.le := 42;
     Pydantic.class_validators := [] |}.
Definition Longitude_field : Pydantic.FieldInfo :=
  {| Pydantic.name := "Longitude"; Pydantic.ge := -125; Pydantic.le := -114;
     Pydantic.class_validators := [] |}.

Definition HousingFeatures_fields : list Pydantic.FieldInfo :=
  [ MedInc_field; HouseAge_field; AveRooms_field; AveBedrms_field;
    Population_field; AveOccup_field; Latitude_field; Longitude_field ].

(** Construction of a [HousingFeatures] from the members of a JSON object
    (or from keyword arguments): every field is validated; the model is
    built when none failed, else all the errors are raised together. *)
Definition HousingFeatures_init (body : gmap string pyfloat)
  : list Pydantic.ErrorWrapper + HousingFeatures :=
  let rs := map (fun fi => Pydantic.validate fi body) HousingFeatures_fields in
  match rs with
  | [inr a; inr b; inr c; inr d; inr e; inr f; inr g; inr h] =>
      inr {| MedInc := a; HouseAge := b; AveRooms := c; AveBedrms := d;
             Population := e; AveOccup := f; Latitude := g; Longitude := h |}
  | _ => inl (Pydantic.errors rs)
  end.

(** [features.dict()]: the fields in the order of declaration, which is
    the order of the columns of the data frame built from it. *)
Definition HousingFeatures_dict (x : HousingFeatures) : list (string * pyfloat) :=
  [ ("MedInc", MedInc x); ("HouseAge", HouseAge x); ("AveRooms", AveRooms x);
    ("AveBedrms", AveBedrms x); ("Population", Population x);
    ("AveOccup", AveOccup x); ("Latitude", Latitude x);
    ("Longitude", Longitude x) ].

(** ** Exceptions, the operational log and the state of the process *)

(** An exception and the text made from one: [str(e)] is
    [Format "" e], and [f"Prediction failed: {e}"] is
    [Format "Prediction failed: " e]. *)
Inductive exn : Type :=
| RuntimeError (msg : Text)
| HTTPException (status_code : nat) (detail : Text)
| ValidationError (errors : list Pydantic.ErrorWrapper)
| Exception (msg : string)   (* raised inside a library: sqlite3, joblib, sklearn, mlflow *)
with Text : Type :=
| Literal (s : string)
| Format (prefix : string) (e : exn).

Definition str (e : exn) : Text := Format "" e.

Inductive Level : Type := INFO | ERROR.

Inductive Message : Type :=
| Msg (text : Text)
| PredictionMade (prediction : pyfloat) (features : list (string * pyfloat)).

Definition LogRecord : Type := Level * Message.

(** A value of the [model_info] dictionary. *)
Inductive InfoValue : Type :=
| VStr (s : string)
| VList (l : list string)
| VTime (t : nat).            (* the ISO-8601 text of a time *)

Module PredictionRecord.
(** A row of the table [predictions]. *)
Record t : Type := {
  id : nat;
  timestamp : nat;
  input_features : list (string * pyfloat);
  prediction : pyfloat;
  model_version : InfoValue
}.
End PredictionRecord.

(** What is wrong with [logs/predictions.db]: the file cannot be opened,
    the statement fails (read-only file, missing table, locked database),
    or the commit fails. *)
Inductive DbFault : Type := ConnectFails | ExecuteFails | CommitFails.

Record Database : Type := {
  rows : list PredictionRecord.t;
  next_id : nat;                  (* AUTOINCREMENT *)
  fault : option DbFault
}.

(** The two Prometheus collectors: the value of the counter
    [predictions_total] and the number of observations of the histogram
    [prediction_duration_seconds]. *)
Record Metrics : Type := {
  prediction_counter : nat;
  prediction_histogram : nat
}.

Record World : Type := {
  db : Database;
  logger : list LogRecord;        (* logs/api.log, oldest first *)
  metrics : option Metrics;       (* [None] when METRICS_ENABLED is false *)
  clock : nat
}.

Definition set_db (d : Database) (w : World) : World :=
  {| db := d; logger := logger w; metrics := metrics w; clock := clock w |}.
Definition set_logger (l : list LogRecord) (w : World) : World :=
  {| db := db w; logger := l; metrics := metrics w; clock := clock w |}.
Definition set_metrics (m : option Metrics) (w : World) : World :=
  {| db := db w; logger := logger w; metrics := m; clock := clock w |}.
Definition set_clock (c : nat) (w : World) : World :=
  {| db := db w; logger := logger w; metrics := metrics w; clock := c |}.

(** Computations that read and change the world and may raise. *)
Definition M (A : Type) : Type := World -> (exn + A) * World.

Definition ret {A} (a : A) : M A := fun w => (inr a, w).
Definition raise {A} (e : exn) : M A := fun w => (inl e, w).
Definition bind {A B} (m : M A) (k : A -> M B) : M B := fun w =>
  match m w with
  | (inr a, w') => k a w'
  | (inl e, w') => (inl e, w')
  end.
Definition lift {A} (r : exn + A) : M A := fun w => (r, w).

(** [try: body except Exception as e: handler e] *)
Definition try_except {A} (body : M A) (handler : exn -> M A) : M A := fun w =>
  match body w with
  | (inl e, w') => handler e w'
  | r => r
  end.

Declare Scope py_scope.
Delimit Scope py_scope with py.
Notation "x <- m ;; k" := (bind m (fun x => k))
  (at level 100, m at next level, right associativity) : py_scope.
Notation "m ;;; k" := (bind m (fun _ => k))
  (at level 100, right associativity) : py_scope.
Local Open Scope py_scope.

Definition logger_info (m : Message) : M unit := fun w =>
  (inr tt, set_logger (logger w ++ [(INFO, m)]) w).
Definition logger_error (m : Message) : M unit := fun w =>
  (inr tt, set_logger (logger w ++ [(ERROR, m)]) w).

(** [datetime.now()] *)
Definition datetime_now : M nat := fun w =>
  (inr (clock w), set_clock (S (clock w)) w).

(** *** sqlite3 *)

Definition sqlite3_connect : M unit := fun w =>
  match fault (db w) with
  | Some ConnectFails => (inl (Exception "unable to open database file"), w)
  | _ => (inr tt, w)
  end.

(** [cursor.execute('INSERT INTO predictions ...', args)]: the row is
    pending in the transaction of the connection. *)
Definition cursor_execute_insert (ts : nat) (features : list (string * pyfloat))
    (p : pyfloat) (version : InfoValue) : M PredictionRecord.t := fun w =>
  match fault (db w) with
  | Some ExecuteFails => (inl (Exception "execute failed"), w)
  | _ => (inr {| PredictionRecord.id := next_id (db w);
                 PredictionRecord.timestamp := ts;
                 PredictionRecord.input_features := features;
                 PredictionRecord.prediction := p;
                 PredictionRecord.model_version := version |}, w)
  end.

(** [conn.commit()] makes the pending row durable. *)
Definition conn_commit (pending : PredictionRecord.t) : M unit := fun w =>
  match fault (db w) with
  | Some CommitFails => (inl (Exception "commit failed"), w)
  | _ => (inr tt,
          set_db {| rows := rows (db w) ++ [pending];
                    next_id := S (next_id (db w));
                    fault := fault (db w) |} w)
  end.

(** ** Data frames (pandas)

    A frame is its columns in order, each a name and the values of the
    rows. *)
Module DataFrame.

Definition t : Type := list (string * list pyfloat).

(** [pd.DataFrame([d])]: one row, one column per key of [d]. *)
Definition of_record (d : list (string * pyfloat)) : t :=
  map (fun kv => (fst kv, [snd kv])) d.

(** [df[k]] *)
Fixpoint getitem (df : t) (k : string) : list pyfloat :=
  match df with
  | [] => []
  | (k', c) :: df' => if String.eqb k' k then c else getitem df' k
  end.

(** [df[k] = c]: an existing column is replaced, a new one is added last. *)
Fixpoint setitem (df : t) (k : string) (c : list pyfloat) : t :=
  match df with
  | [] => [(k, c)]
  | (k', c') :: df' =>
      if String.eqb k' k then (k, c) :: df' else (k', c') :: setitem df' k c
  end.

(** [a / b] on two columns *)
Fixpoint truediv (a b : list pyfloat) : list pyfloat :=
  match a, b with
  | x :: a', y :: b' => PyFloat.div x y :: truediv a' b'
  | _, _ => []
  end.

(** [df.replace([np.inf, -np.inf], np.nan)] *)
Definition replace_inf (df : t) : t :=
  map (fun kc => (fst kc,
                  map (fun x => if PyFloat.isinf x then NaN else x) (snd kc))) df.

(** The mean of a column over the values that are not [nan]; [nan] when
    there is none. *)
Definition mean (c : list pyfloat) : pyfloat :=
  let xs := filter (fun x => PyFloat.isnan x = false) c in
  match xs with
  | [] => NaN
  | _ => PyFloat.div (foldr PyFloat.add (Fin 0) xs)
                     (Fin (inject_Z (Z.of_nat (length xs))))
  end.

(** [df.fillna(df.mean())] *)
Definition fillna_mean (df : t) : t :=
  map (fun kc =>
         let m := mean (snd kc) in
         (fst kc, map (fun x => if PyFloat.isnan x then m else x) (snd kc))) df.

Definition nrows (df : t) : nat :=
  match df with
  | [] => 0
  | (_, c) :: _ => length c
  end.

(** [df.values]: the rows. *)
Definition values (df : t) : list (list pyfloat) :=
  map (fun i => map (fun kc => nth i (snd kc) NaN) df) (seq 0 (nrows df)).

End DataFrame.

(** ** The artifacts (scikit-learn) *)

(** A fitted estimator: [predict] takes the rows and returns one value a
    row, or raises. *)
Record Model : Type := {
  model_predict : list (list pyfloat) -> exn + list pyfloat
}.

(** A fitted scaler. *)
Record Scaler : Type := {
  scaler_transform : list (list pyfloat) -> exn + list (list pyfloat)
}.

(** [a[0]] *)
Definition getitem0 {A} (a : list A) : exn + A :=
  match a with
  | x :: _ => inr x
  | [] => inl (Exception "index 0 is out of bounds")
  end.

(** ** [class MLModelService] *)

Record MLModelService : Type := {
  model : option Model;
  scaler : option Scaler;
  model_info : gmap string InfoValue;
  feature_names : list string
}.

(** [d.get(k, dflt)] *)
Definition dict_get (d : gmap string InfoValue) (k : string) (dflt : string)
  : InfoValue :=
  match d !! k with
  | Some v => v
  | None => VStr dflt
  end.

(** The part of [preprocess_input] that adds the engineered features and
    handles the infinite and undefined values. *)
Definition engineer_features (features : HousingFeatures) : DataFrame.t :=
  let input_dict := HousingFeatures_dict features in
  let df := DataFrame.of_record input_dict in
  let df := DataFrame.setitem df "rooms_per_household"
              (DataFrame.truediv (DataFrame.getitem df "AveRooms")
                                 (DataFrame.getitem df "AveOccup")) in
  let df := DataFrame.setitem df "bedrooms_per_room"
              (DataFrame.truediv (DataFrame.getitem df "AveBedrms")
                                 (DataFrame.getitem df "AveRooms")) in
  let df := DataFrame.setitem df "population_per_household"
              (DataFrame.truediv (DataFrame.getitem df "Population")
                                 (DataFrame.getitem df "AveOccup")) in
  let df := DataFrame.replace_inf df in
  DataFrame.fillna_mean df.

Definition preprocess_input (self : MLModelService) (features : HousingFeatures)
  : exn + list (list pyfloat) :=
  let df := engineer_features features in
  match scaler self with
  | Some s => scaler_transform s (DataFrame.values df)
  | None => inr (DataFrame.values df)
  end.

Definition log_prediction (self : MLModelService) (features : HousingFeatures)
    (prediction : pyfloat) : M unit :=
  try_except
    (sqlite3_connect ;;;
     now <- datetime_now ;;
     pending <- cursor_execute_insert now (HousingFeatures_dict features)
                  prediction (dict_get (model_info self) "version" "unknown") ;;
     conn_commit pending ;;;
     logger_info (PredictionMade prediction (HousingFeatures_dict features)))
    (fun e => logger_error (Msg (Format "Error logging prediction: " e))).

(** [with prediction_histogram.time(): body] when the metrics are enabled,
    else [body]; the duration is observed when the block is left, also by
    an exception. *)
Definition timed {A} (body : M A) : M A := fun w =>
  match metrics w with
  | Some _ =>
      let '(r, w') := body w in
      (r, set_metrics
            (option_map (fun m => {| prediction_counter := prediction_counter m;
                                     prediction_histogram := S (prediction_histogram m) |})
               (metrics w')) w')
  | None => body w
  end.

(** [if METRICS_ENABLED and prediction_counter: prediction_counter.inc()] *)
Definition prediction_counter_inc : M unit := fun w =>
  match metrics w with
  | Some m => (inr tt, set_metrics
                 (Some {| prediction_counter := S (prediction_counter m);
                          prediction_histogram := prediction_histogram m |}) w)
  | None => (inr tt, w)
  end.

Definition predict (self : MLModelService) (features : HousingFeatures)
  : M pyfloat :=
  match model self with
  | None => raise (RuntimeError (Literal "Model not loaded"))
  | Some m =>
      try_except
        (X <- lift (preprocess_input self features) ;;
         prediction <- timed (y <- lift (model_predict m X) ;; lift (getitem0 y)) ;;
         log_prediction self features prediction ;;;
         prediction_counter_inc ;;;
         ret prediction)
        (fun e =>
           logger_error (Msg (Format "Prediction error: " e)) ;;;
           raise (HTTPException 500 (Format "Prediction failed: " e)))
  end.

(** *** Start of the service *)

(** What the process finds when it starts: the outcome of
    [mlflow.sklearn.load_model("models:/california_housing_best_model/Production")],
    the model files under [models/] (a path that is absent does not exist;
    one that is present is loaded by [joblib.load], which may raise), and
    [models/scaler.joblib]. *)
Record Environment : Type := {
  mlflow_registry : exn + Model;
  model_store : gmap string (exn + Model);
  scaler_store : option (exn + Scaler)
}.

Definition model_files : list (string * string) :=
  [ ("gradient_boosting", "models/gradient_boosting.joblib");
    ("random_forest", "models/random_forest.joblib");
    ("linear_regression", "models/linear_regression.joblib") ].

Definition set_model (m : Model) (source version : InfoValue)
    (self : MLModelService) : MLModelService :=
  {| model := Some m;
     scaler := scaler self;
     model_info := <["version" := version]> (<["source" := source]> (model_info self));
     feature_names := feature_names self |}.

(** [for model_name, path in model_files.items(): if os.path.exists(path):
    ...; break] *)
Fixpoint load_local_model (env : Environment) (files : list (string * string))
    (self : MLModelService) : M MLModelService :=
  match files with
  | [] => ret self
  | (model_name, path) :: files' =>
      match model_store env !! path with
      | Some content =>
          m <- lift content ;;
          logger_info (Msg (Literal ("Model loaded from " +:+ path))) ;;;
          ret (set_model m (VStr ("Local file: " +:+ path)) (VStr "1.0.0") self)
      | None => load_local_model env files' self
      end
  end.

Definition load_scaler (env : Environment) (self : MLModelService)
  : M MLModelService :=
  match scaler_store env with
  | Some content =>
      s <- lift content ;;
      logger_info (Msg (Literal "Scaler loaded successfully")) ;;;
      ret {| model := model self; scaler := Some s;
             model_info := model_info self;
             feature_names := feature_names self |}
  | None => ret self
  end.

Definition FEATURE_NAMES : list string :=
  [ "MedInc"; "HouseAge"; "AveRooms"; "AveBedrms"; "Population";
    "AveOccup"; "Latitude"; "Longitude"; "rooms_per_household";
    "bedrooms_per_room"; "population_per_household" ].

Definition load_model (env : Environment) (self : MLModelService)
  : M MLModelService :=
  try_except
    (self <- try_except
               (m <- lift (mlflow_registry env) ;;
                logger_info (Msg (Literal "Model loaded from MLflow Registry")) ;;;
                ret (set_model m (VStr "MLflow Registry") (VStr "Production") self))
               (fun _ => load_local_model env model_files self) ;;
     self <- load_scaler env self ;;
     now <- datetime_now ;;
     ret {| model := model self; scaler := scaler self;
            model_info :=
              <["last_updated" := VTime now]>
                (<["features" := VList FEATURE_NAMES]>
                   (<["model_name" := VStr "California Housing Price Predictor"]>
                      (model_info self)));
            feature_names := FEATURE_NAMES |})
    (fun e =>
       logger_error (Msg (Format "Error loading model: " e)) ;;;
       raise (RuntimeError (Format "Could not load model: " e))).

(** [CREATE TABLE IF NOT EXISTS predictions]: the rows that exist stay. *)
Definition setup_database : M unit :=
  try_except
    (sqlite3_connect ;;;
     (fun w => match fault (db w) with
               | Some _ => (inl (Exception "create table failed"), w)
               | None => (inr tt, w)
               end) ;;;
     logger_info (Msg (Literal "Database setup complete")))
    (fun e => logger_error (Msg (Format "Database setup error: " e))).

(** [MLModelService.__init__], run once when the module is imported: an
    exception that leaves it ends the process before it serves. *)
Definition MLModelService_init (env : Environment) : M MLModelService :=
  let self := {| model := None; scaler := None; model_info := ∅;
                 feature_names := [] |} in
  self <- load_model env self ;;
  setup_database ;;;
  ret self.

(** ** The endpoints *)

Module PredictionResponse.
Record t : Type := {
  prediction : pyfloat;
  model_version : InfoValue;
  timestamp : nat;
  confidence_interval : gmap string pyfloat
}.
End PredictionResponse.

Module ModelInfo.
Record t : Type := {
  model_name : InfoValue;
  model_version : InfoValue;
  features : list string;
  performance_metrics : gmap string pyfloat;
  last_updated : InfoValue
}.
End ModelInfo.

(** [@app.post("/predict")] *)
Definition predict_price (self : MLModelService) (features : HousingFeatures)
  : M PredictionResponse.t :=
  try_except
    (prediction <- predict self features ;;
     now <- datetime_now ;;
     ret {| PredictionResponse.prediction := PyFloat.round2 prediction;
            PredictionResponse.model_version :=
              dict_get (model_info self) "version" "unknown";
            PredictionResponse.timestamp := now;
            PredictionResponse.confidence_interval :=
              {[ "lower" := PyFloat.round2 (PyFloat.mul prediction (Fin 0.85));
                 "upper" := PyFloat.round2 (PyFloat.mul prediction (Fin 1.15)) ]} |})
    (fun e =>
       logger_error (Msg (Format "Prediction endpoint error: " e)) ;;;
       raise (HTTPException 500 (str e))).

(** A value of the dictionary returned by [/health]. *)
Inductive JsonValue : Type :=
| JStr (s : string)
| JBool (b : bool)
| JText (t : Text)
| JTime (t : nat).

Definition canonical_input : gmap string pyfloat :=
  {[ "MedInc" := Fin 5; "HouseAge" := Fin 10; "AveRooms" := Fin 6;
     "AveBedrms" := Fin 1; "Population" := Fin 1000; "AveOccup" := Fin 3;
     "Latitude" := Fin 35; "Longitude" := Fin (-120) ]}.

(** [@app.get("/health")] *)
Definition health_check (self : MLModelService) : M (gmap string JsonValue) :=
  try_except
    (test_features <-
       lift (match HousingFeatures_init canonical_input with
             | inr f => inr f
             | inl errs => inl (ValidationError errs)
             end) ;;
     _ <- predict self test_features ;;
     now <- datetime_now ;;
     ret {[ "status" := JStr "healthy";
            "model_loaded" := JBool (bool_decide (is_Some (model self)));
            "scaler_loaded" := JBool (bool_decide (is_Some (scaler self)));
            "timestamp" := JTime now ]})
    (fun e =>
       now <- datetime_now ;;
       ret {[ "status" := JStr "unhealthy";
              "error" := JText (str e);
              "timestamp" := JTime now ]}).

(** [@app.get("/model/info")] *)
Definition get_model_info (self : MLModelService) : ModelInfo.t :=
  {| ModelInfo.model_name := dict_get (model_info self) "model_name" "Unknown";
     ModelInfo.model_version := dict_get (model_info self) "version" "Unknown";
     ModelInfo.features := feature_names self;
     ModelInfo.performance_metrics :=
       {[ "rmse" := Fin 0.52; "r2_score" := Fin 0.82 ]};
     ModelInfo.last_updated := dict_get (model_info self) "last_updated" "Unknown" |}.

(** *** The responses of the application (FastAPI)

    The body of [POST /predict] is validated before the handler is called:
    a body that fails is answered 422 with the errors, and the handler does
    not run.  An [HTTPException] that leaves a handler becomes a response
    with its status code. *)
Inductive HttpResponse (A : Type) : Type :=
| Http200 (body : A)
| Http422 (detail : list Pydantic.ErrorWrapper)
| HttpError (status_code : nat) (detail : Text).
Arguments Http200 {A} body.
Arguments Http422 {A} detail.
Arguments HttpError {A} status_code detail.

(** The value that a handler returns is rendered with
    [json.dumps(..., allow_nan=False)]: a body that holds [nan] or an
    infinity cannot be rendered.  [renderable a] tells that [a] can. *)
Class Renderable (A : Type) : Type := renderable : A -> bool.

(** Of a [PredictionResponse] the prediction and the two ends of the
    interval are floats; the version and the timestamp are strings. *)
#[global] Instance PredictionResponse_renderable
  : Renderable PredictionResponse.t := fun r =>
  PyFloat.isfinite (PredictionResponse.prediction r) &&
  forallb PyFloat.isfinite
          (map snd (map_to_list (PredictionResponse.confidence_interval r))).

(** The dictionary of [/health] holds strings and booleans only. *)
#[global] Instance health_renderable : Renderable (gmap string JsonValue) :=
  fun _ => true.

(** The response to a request whose handler ended with [r].  The
    rendering comes after the handler: when it raises, the handler has run
    to its end, and the exception is answered as any exception that is no
    [HTTPException], with the plain 500 of the server. *)
Definition respond {A} `{Renderable A} (r : exn + A) : HttpResponse A :=
  match r with
  | inr a =>
      if renderable a then Http200 a
      else HttpError 500 (Literal "Internal Server Error")
  | inl (HTTPException c d) => HttpError c d
  | inl _ => HttpError 500 (Literal "Internal Server Error")
  end.

Definition post_predict (self : MLModelService) (body : gmap string pyfloat)
  : World -> HttpResponse PredictionResponse.t * World := fun w =>
  match HousingFeatures_init body with
  | inl errs => (Http422 errs, w)
  | inr features =>
      let '(r, w') := predict_price self features w in (respond r, w')
  end.

Definition get_health (self : MLModelService)
  : World -> HttpResponse (gmap string JsonValue) * World := fun w =>
  let '(r, w') := health_check self w in (respond r, w').

(** ** What the specification says of a request *)

(** [v] lies in the inclusive range declared for the field. *)
Definition in_range (fi : Pydantic.FieldInfo) (v : pyfloat) : Prop :=
  PyFloat.ge v (Fin (Pydantic.ge fi)) = true /\
  PyFloat.le v (Fin (Pydantic.le fi)) = true.

(** Every field is there and in its range, and AveOccup is greater
    than 0. *)
Definition acceptable (body : gmap string pyfloat) : Prop :=
  Forall (fun fi => exists v, body !! Pydantic.name fi = Some v /\ in_range fi v)
         HousingFeatures_fields /\
  exists v, body !! "AveOccup" = Some v /\ PyFloat.gt v (Fin 0) = true.

(** All the constraints of a field that the body violates, each one
    checked on its own on the submitted value. *)
Definition violated (fi : Pydantic.FieldInfo) (body : gmap string pyfloat)
  : list Pydantic.ErrorWrapper :=
  match body !! Pydantic.name fi with
  | None => [(Pydantic.name fi, Pydantic.Missing)]
  | Some v =>
      (if PyFloat.ge v (Fin (Pydantic.ge fi)) then []
       else [(Pydantic.name fi, Pydantic.NumberNotGe (Pydantic.ge fi))]) ++
      (if PyFloat.le v (Fin (Pydantic.le fi)) then []
       else [(Pydantic.name fi, Pydantic.NumberNotLe (Pydantic.le fi))]) ++
      flat_map (fun f => match f v with
                         | inl e => [(Pydantic.name fi, e)]
                         | inr _ => []
                         end) (Pydantic.class_validators fi)
  end.

Definition violated_constraints (body : gmap string pyfloat)
  : list Pydantic.ErrorWrapper :=
  flat_map (fun fi => violated fi body) HousingFeatures_fields.

(** The first violated constraint of every field that has one. *)
Definition first_violations (body : gmap string pyfloat)
  : list Pydantic.ErrorWrapper :=
  flat_map (fun fi => take 1 (violated fi body)) HousingFeatures_fields.

(** ** Inputs used in the examples below *)

(** The canonical input with no household member at all. *)
Definition zero_occupancy_input : gmap string pyfloat :=
  <["AveOccup" := Fin 0]> canonical_input.

(** The canonical input with a negative income and no household member. *)
Definition two_faults_input : gmap string pyfloat :=
  <["MedInc" := Fin (-1)]> zero_occupancy_input.

(** An estimator that predicts [y] for every row. *)
Definition constant_model (y : pyfloat) : Model :=
  {| model_predict := fun X => inr (map (fun _ => y) X) |}.

(** A service that holds [constant_model y], loaded from the first local
    file, and no scaler. *)
Definition constant_service (y : pyfloat) : MLModelService :=
  {| model := Some (constant_model y);
     scaler := None;
     model_info := {[ "version" := VStr "1.0.0" ]};
     feature_names := FEATURE_NAMES |}.

(** A service that started without any model. *)
Definition empty_service : MLModelService :=
  {| model := None; scaler := None; model_info := ∅;
     feature_names := FEATURE_NAMES |}.

(** A process whose prediction log is empty, with the condition [f] of the
    database file, and with the metrics enabled or not. *)
Definition fresh_world (f : option DbFault) (metrics_enabled : bool) : World :=
  {| db := {| rows := []; next_id := 1; fault := f |};
     logger := [];
     metrics := if metrics_enabled
                then Some {| prediction_counter := 0; prediction_histogram := 0 |}
                else None;
     clock := 0 |}.

(** ** What the specification says of the start *)

(** The first file of the list that exists, with what loading it gives. *)
Fixpoint first_existing (store : gmap string (exn + Model))
    (files : list (string * string)) : option (string * (exn + Model)) :=
  match files with
  | [] => None
  | (_, path) :: files' =>
      match store !! path with
      | Some content => Some (path, content)
      | None => first_existing store files'
      end
  end.

(** Some path resolves a model: the registry, or a local model file that
    loads. *)
Definition resolvable (env : Environment) : Prop :=
  (exists m, mlflow_registry env = inr m) \/
  (exists model_name path m,
     In (model_name, path) model_files /\
     model_store env !! path = Some (inr m)).

(** The model that the start resolves, or the exception of the attempt. *)
Definition resolution (env : Environment) : exn + option (Model * InfoValue) :=
  match mlflow_registry env with
  | inr m => inr (Some (m, VStr "MLflow Registry"))
  | inl _ =>
      match first_existing (model_store env) model_files with
      | None => inr None
      | Some (path, inr m) => inr (Some (m, VStr ("Local file: " +:+ path)))
      | Some (_, inl e) => inl e
      end
  end.

(** The start is fatal: an exception leaves [MLModelService.__init__]. *)
Definition fatal (env : Environment) (w : World) : Prop :=
  exists e w', MLModelService_init env w = (inl e, w').

(** Loading the scaler does not raise (the file is absent or loads). *)
Definition scaler_loadable (env : Environment) : Prop :=
  forall e, scaler_store env <> Some (inl e).

(** Nothing to load: the registry cannot be reached and [models/] is
    empty. *)
Definition bare_environment : Environment :=
  {| mlflow_registry := inl (Exception "registry unreachable");
     model_store := ∅;
     scaler_store := None |}.

(** The registry cannot be reached, the file of the gradient boosting model
    is damaged and the one of the random forest is sound. *)
Definition damaged_first_environment : Environment :=
  {| mlflow_registry := inl (Exception "registry unreachable");
     model_store :=
       {[ "models/gradient_boosting.joblib" := inl (Exception "truncated file");
          "models/random_forest.joblib" := inr (constant_model (Fin 2)) ]};
     scaler_store := None |}.

(** The registry cannot be reached and only the two last files exist. *)
Definition local_environment : Environment :=
  {| mlflow_registry := inl (Exception "registry unreachable");
     model_store :=
       {[ "models/random_forest.joblib" := inr (constant_model (Fin 2));
          "models/linear_regression.joblib" := inr (constant_model (Fin 3)) ]};
     scaler_store := None |}.

(** ** What the specification says of a prediction *)

(** The row that [log_prediction] inserts for the prediction [y] made in
    the world [w]. *)
Definition logged_row (self : MLModelService) (features : HousingFeatures)
    (y : pyfloat) (w : World) : PredictionRecord.t :=
  {| PredictionRecord.id := next_id (db w);
     PredictionRecord.timestamp := clock w;
     PredictionRecord.input_features := HousingFeatures_dict features;
     PredictionRecord.prediction := y;
     PredictionRecord.model_version :=
       dict_get (model_info self) "version" "unknown" |}.

(** One more observation of the histogram and one more prediction counted. *)
Definition observed_and_counted (m : Metrics) : Metrics :=
  {| prediction_counter := S (prediction_counter m);
     prediction_histogram := S (prediction_histogram m) |}.

(** The model of the service returns [y] for the features: the service
    holds a model, preprocessing does not raise, and the model returns a
    value for the row. *)
Definition infers (self : MLModelService) (features : HousingFeatures)
    (y : pyfloat) : Prop :=
  exists m X ys,
    model self = Some m /\
    preprocess_input self features = inr X /\
    model_predict m X = inr (y :: ys).

(** The effects of one prediction [y] that succeeded, from [w] to [w']:
    the metrics, when they are enabled, count it; the row is appended when
    the database has no fault, and otherwise the table is unchanged and the
    failure is written to the operational log. *)
Definition prediction_effects (self : MLModelService)
    (features : HousingFeatures) (y : pyfloat) (w w' : World) : Prop :=
  metrics w' = observed_and_counted <$> metrics w /\
  fault (db w') = fault (db w) /\
  match fault (db w) with
  | None =>
      rows (db w') = rows (db w) ++ [logged_row self features y w] /\
      next_id (db w') = S (next_id (db w)) /\
      logger w' = logger w ++
                  [(INFO, PredictionMade y (HousingFeatures_dict features))]
  | Some _ =>
      db w' = db w /\
      exists e, logger w' = logger w ++
                  [(ERROR, Msg (Format "Error logging prediction: " e))]
  end.

(** The features that [/health] submits. *)
Definition canonical_features : HousingFeatures :=
  {| MedInc := Fin 5; HouseAge := Fin 10; AveRooms := Fin 6;
     AveBedrms := Fin 1; Population := Fin 1000; AveOccup := Fin 3;
     Latitude := Fin 35; Longitude := Fin (-120) |}.

(** ** The other endpoints and the application *)

(** A value of the dictionary returned by [/]: a string, or the
    dictionary of the endpoints. *)
Inductive RootValue : Type :=
| RStr (s : string)
| RDict (members : list (string * string)).

(** [@app.get("/")] *)
Definition root : list (string * RootValue) :=
  [ ("message", RStr "California Housing Price Predictor API");
    ("version", RStr "1.0.0");
    ("endpoints",
      RDict [ ("predict", "/predict");
              ("health", "/health");
              ("model_info", "/model/info");
              ("metrics", "/metrics") ]) ].

(** The body of [/metrics]: the exposition of the collectors, of which the
    two of this module are kept, or the message that there are none. *)
Inductive MetricsBody : Type :=
| Exposition (m : Metrics)
| MetricsNotAvailable.        (* {"message": "Metrics not available"} *)

(** [@app.get("/metrics")] *)
Definition get_metrics (w : World) : MetricsBody :=
  match metrics w with
  | Some m => Exposition m
  | None => MetricsNotAvailable
  end.

(** The routes of [app]. *)
Inductive Request : Type :=
| GET_root
| POST_predict (body : gmap string pyfloat)
| GET_health
| GET_model_info
| GET_metrics.

Inductive ResponseBody : Type :=
| RootBody (j : list (string * RootValue))
| PredictBody (r : PredictionResponse.t)
| HealthBody (h : gmap string JsonValue)
| ModelInfoBody (i : ModelInfo.t)
| MetricsResponse (m : MetricsBody).

Definition HttpResponse_map {A B} (f : A -> B) (r : HttpResponse A)
  : HttpResponse B :=
  match r with
  | Http200 a => Http200 (f a)
  | Http422 d => Http422 d
  | HttpError c d => HttpError c d
  end.

(** One request served by the application. *)
Definition app (self : MLModelService) (req : Request)
  : World -> HttpResponse ResponseBody * World := fun w =>
  match req with
  | GET_root => (Http200 (RootBody root), w)
  | POST_predict body =>
      let '(r, w') := post_predict self body w in
      (HttpResponse_map PredictBody r, w')
  | GET_health =>
      let '(r, w') := get_health self w in
      (HttpResponse_map HealthBody r, w')
  | GET_model_info => (Http200 (ModelInfoBody (get_model_info self)), w)
  | GET_metrics => (Http200 (MetricsResponse (get_metrics w)), w)
  end.

(** The requests served one after the other. *)
Fixpoint serve (self : MLModelService) (reqs : list Request) (w : World)
  : list (HttpResponse ResponseBody) * World :=
  match reqs with
  | [] => ([], w)
  | req :: reqs' =>
      let '(r, w1) := app self req w in
      let '(rs, w2) := serve self reqs' w1 in
      (r :: rs, w2)
  end.

(** ** What the code shows of a request *)

(** The response tells that [predict] made a prediction: a 200 of
    [/predict], a healthy [/health], or the plain 500 of the server, which
    answers a prediction that was made and could not be rendered (an
    exception of the pipeline is answered by the handler, with the text of
    the exception as the detail). *)
Definition made_prediction (r : HttpResponse ResponseBody) : bool :=
  match r with
  | Http200 (PredictBody _) => true
  | Http200 (HealthBody h) =>
      match h !! "status" with
      | Some (JStr s) => String.eqb s "healthy"
      | _ => false
      end
  | HttpError _ (Literal _) => true
  | _ => false
  end.

(** The identifiers of the rows grow strictly and stay below the next
    one. *)
Definition log_ordered (d : Database) : Prop :=
  StronglySorted lt (map PredictionRecord.id (rows d)) /\
  Forall (fun r => (PredictionRecord.id r < next_id d)%nat) (rows d).

(** The counter never exceeds the number of observations. *)
Definition metrics_consistent (w : World) : Prop :=
  match metrics w with
  | Some m => (prediction_counter m <= prediction_histogram m)%nat
  | None => True
  end.

(** What one request may change, from [w] to [w']: rows are only appended,
    at most one, with the next identifier; the operational log only
    grows; the fault of the database and the presence of the metrics stay;
    the two collectors grow by one at most, the counter never without the
    histogram. *)
Definition request_frame (w w' : World) : Prop :=
  fault (db w') = fault (db w) /\
  (exists new,
     rows (db w') = rows (db w) ++ new /\
     next_id (db w') = (next_id (db w) + length new)%nat /\
     (new = [] \/ exists r, new = [r] /\ PredictionRecord.id r = next_id (db w))) /\
  (exists added, logger w' = logger w ++ added) /\
  match metrics w, metrics w' with
  | None, None => True
  | Some m, Some m' =>
      (prediction_counter m' = prediction_counter m \/
       (prediction_counter m' = S (prediction_counter m) /\
        prediction_histogram m' = S (prediction_histogram m))) /\
      (prediction_histogram m' = prediction_histogram m \/
       prediction_histogram m' = S (prediction_histogram m))
  | _, _ => False
  end.

(** The same world with another condition of the database file. *)
Definition set_fault (f : option DbFault) (w : World) : World :=
  set_db {| rows := rows (db w); next_id := next_id (db w); fault := f |} w.

(** Three requests: a prediction, a probe, and an invalid prediction. *)
Definition sample_requests : list Request :=
  [ POST_predict canonical_input; GET_health; POST_predict two_faults_input ].

(** An estimator whose [predict] raises for every input. *)
Definition raising_model : Model :=
  {| model_predict := fun _ => inl (Exception "input contains NaN") |}.

(** A service that holds [raising_model] and no scaler. *)
Definition raising_service : MLModelService :=
  {| model := Some raising_model;
     scaler := None;
     model_info := {[ "version" := VStr "1.0.0" ]};
     feature_names := FEATURE_NAMES |}.

(** 1 for a response that tells of a prediction made, else 0. *)
Definition counted (r : HttpResponse ResponseBody) : nat :=
  if made_prediction r then 1%nat else 0%nat.

(** ** What the code shows of the feature engineering *)

(** An infinity becomes [nan], any other value stays. *)
Definition sanitize (x : pyfloat) : pyfloat :=
  if PyFloat.isinf x then NaN else x.

(** The 8 submitted values followed by the 3 quotients, as computed. *)
Definition raw_and_ratios (x : HousingFeatures) : list pyfloat :=
  [ MedInc x; HouseAge x; AveRooms x; AveBedrms x; Population x; AveOccup x;
    Latitude x; Longitude x;
    PyFloat.div (AveRooms x) (AveOccup x);
    PyFloat.div (AveBedrms x) (AveRooms x);
    PyFloat.div (Population x) (AveOccup x) ].

(** ** The form of [src/ui/streamlit_app.py] *)

(** [st.number_input(label, min_value, max_value, value)]: the widget holds
    a number between its two bounds. *)
Record NumberInput : Type := {
  label : string;
  min_value : Q;
  max_value : Q;
  value : Q
}.

Definition medinc_input : NumberInput :=
  {| label := "Median Income (MedInc)";
     min_value := 0; max_value := 15; value := 5 |}.
Definition houseage_input : NumberInput :=
  {| label := "Median House Age (HouseAge)";
     min_value := 0; max_value := 100; value := 20 |}.
Definition averooms_input : NumberInput :=
  {| label := "Average Rooms (AveRooms)";
     min_value := 1; max_value := 20; value := 6 |}.
Definition avebedrms_input : NumberInput :=
  {| label := "Average Bedrooms (AveBedrms)";
     min_value := 0; max_value := 5; value := 1 |}.
Definition population_input : NumberInput :=
  {| label := "Population";
     min_value := 0; max_value := 500000; value := 1000 |}.
Definition aveoccup_input : NumberInput :=
  {| label := "Average Occupancy (AveOccup)";
     min_value := 0.5; max_value := 20; value := 3 |}.
Definition latitude_input : NumberInput :=
  {| label := "Latitude"; min_value := 32; max_value := 42; value := 36 |}.
Definition longitude_input : NumberInput :=
  {| label := "Longitude"; min_value := -125; max_value := -114; value := -120 |}.

(** The numbers that the 8 widgets hold. *)
Record Form : Type := {
  medinc : Q;
  houseage : Q;
  averooms : Q;
  avebedrms : Q;
  population : Q;
  aveoccup : Q;
  latitude : Q;
  longitude : Q
}.

Definition holds (i : NumberInput) (v : Q) : Prop :=
  (min_value i <= v)%Q /\ (v <= max_value i)%Q.

(** Every widget holds a number between its bounds. *)
Definition form_state (f : Form) : Prop :=
  holds medinc_input (medinc f) /\ holds houseage_input (houseage f) /\
  holds averooms_input (averooms f) /\ holds avebedrms_input (avebedrms f) /\
  holds population_input (population f) /\ holds aveoccup_input (aveoccup f) /\
  holds latitude_input (latitude f) /\ holds longitude_input (longitude f).

(** The dictionary [features] posted by the button "Predict Price". *)
Definition form_features (f : Form) : gmap string pyfloat :=
  {[ "MedInc" := Fin (medinc f); "HouseAge" := Fin (houseage f);
     "AveRooms" := Fin (averooms f); "AveBedrms" := Fin (avebedrms f);
     "Population" := Fin (population f); "AveOccup" := Fin (aveoccup f);
     "Latitude" := Fin (latitude f); "Longitude" := Fin (longitude f) ]}.

(** What the page shows after the button: the prediction with the version,
    the timestamp and the interval, or the error of the API. *)
Inductive Shown : Type :=
| PredictedPrice (prediction : pyfloat) (model_version : InfoValue)
    (timestamp : nat) (ci : gmap string pyfloat)
| ApiError (response : HttpResponse PredictionResponse.t).

(** [if st.button("Predict Price"): ...], with the API in reach. *)
Definition predict_button (self : MLModelService) (f : Form)
  : World -> Shown * World := fun w =>
  let '(response, w') := post_predict self (form_features f) w in
  match response with
  | Http200 result =>
      (PredictedPrice (PredictionResponse.prediction result)
         (PredictionResponse.model_version result)
         (PredictionResponse.timestamp result)
         (PredictionResponse.confidence_interval result), w')
  | _ => (ApiError response, w')
  end.

(** A form with the default values but for the population. *)
Definition form_with_population (p : Q) : Form :=
  {| medinc := 5; houseage := 20; averooms := 6; avebedrms := 1;
     population := p; aveoccup := 3; latitude := 36; longitude := -120 |}.

(** ** [DataProcessor.preprocess_data] of [src/data/data_processor.py] *)

(** [X[k]]: a column that is absent raises [KeyError]. *)
Fixpoint column (X : DataFrame.t) (k : string) : exn + list pyfloat :=
  match X with
  | [] => inl (Exception ("KeyError: " +:+ k))
  | (k', c) :: X' => if String.eqb k' k then inr c else column X' k
  end.

(** [x / y] on two columns that may raise when they are read. *)
Definition truediv_columns (a b : exn + list pyfloat) : exn + list pyfloat :=
  match a with
  | inl e => inl e
  | inr x =>
      match b with
      | inl e => inl e
      | inr y => inr (DataFrame.truediv x y)
      end
  end.

Definition preprocess_data (X : DataFrame.t) (y : list pyfloat)
  : exn + (DataFrame.t * list pyfloat) :=
  let X_processed := X in
  match truediv_columns (column X "AveRooms") (column X "AveOccup") with
  | inl e => inl e
  | inr rooms_per_household =>
      let X_processed :=
        DataFrame.setitem X_processed "rooms_per_household" rooms_per_household in
      match truediv_columns (column X "AveBedrms") (column X "AveRooms") with
      | inl e => inl e
      | inr bedrooms_per_room =>
          let X_processed :=
            DataFrame.setitem X_processed "bedrooms_per_room" bedrooms_per_room in
          match truediv_columns (column X "Population") (column X "AveOccup") with
          | inl e => inl e
          | inr population_per_household =>
              let X_processed :=
                DataFrame.setitem X_processed "population_per_household"
                  population_per_household in
              let X_processed := DataFrame.replace_inf X_processed in
              let X_processed := DataFrame.fillna_mean X_processed in
              inr (X_processed, y)
          end
      end
  end.

(** The frame of the California Housing data: the 8 columns of the
    submitted features, one row a record. *)
Definition housing_frame (fs : list HousingFeatures) : DataFrame.t :=
  [ ("MedInc", map MedInc fs); ("HouseAge", map HouseAge fs);
    ("AveRooms", map AveRooms fs); ("AveBedrms", map AveBedrms fs);
    ("Population", map Population fs); ("AveOccup", map AveOccup fs);
    ("Latitude", map Latitude fs); ("Longitude", map Longitude fs) ].

(** The column with its gaps filled: a finite value stays, and any other
    value becomes the mean of the column, which pandas takes over the
    values that are not [nan] once the infinities are made [nan]. *)
Definition fill_gaps (c : list pyfloat) : list pyfloat :=
  map (fun x => if PyFloat.isfinite x then x
                else DataFrame.mean (map sanitize c)) c.

(** Two records: one regular, one with no household member. *)
Definition regular_and_degenerate : list HousingFeatures :=
  [ canonical_features;
    {| MedInc := Fin 5; HouseAge := Fin 10; AveRooms := Fin 6;
       AveBedrms := Fin 1; Population := Fin 1000; AveOccup := Fin 0;
       Latitude := Fin 35; Longitude := Fin (-120) |} ].

(** The values and the quotients of the record are all finite. *)
Definition regular (x : HousingFeatures) : Prop :=
  Forall (fun v => PyFloat.isfinite v = true) (raw_and_ratios x).

(** The 11 columns as functions of a record. *)
Definition feature_getters : list (string * (HousingFeatures -> pyfloat)) :=
  [ ("MedInc", MedInc); ("HouseAge", HouseAge); ("AveRooms", AveRooms);
    ("AveBedrms", AveBedrms); ("Population", Population);
    ("AveOccup", AveOccup); ("Latitude", Latitude); ("Longitude", Longitude);
    ("rooms_per_household", fun x => PyFloat.div (AveRooms x) (AveOccup x));
    ("bedrooms_per_room", fun x => PyFloat.div (AveBedrms x) (AveRooms x));
    ("population_per_household",
      fun x => PyFloat.div (Population x) (AveOccup x)) ].

(** The frame whose columns are functions of the records. *)
Definition frame_of (gs : list (string * (HousingFeatures -> pyfloat)))
    (fs : list HousingFeatures) : DataFrame.t :=
  map (fun kg => (kg.1, map kg.2 fs)) gs.

(** ** [ModelMonitor] of [src/monitoring/monitor.py] *)

(** [- x], [x - y], [abs(x)] and [x != y] on floats. *)
Definition pyfloat_neg (x : pyfloat) : pyfloat :=
  match x with
  | Fin a => Fin (- a)
  | PInf => NInf
  | NInf => PInf
  | NaN => NaN
  end.

Definition pyfloat_sub (x y : pyfloat) : pyfloat := PyFloat.add x (pyfloat_neg y).

Definition pyfloat_abs (x : pyfloat) : pyfloat :=
  match x with
  | Fin a => Fin (Qabs a)
  | PInf | NInf => PInf
  | NaN => NaN
  end.

Definition pyfloat_ne (x y : pyfloat) : bool := negb (PyFloat.eqb x y).

(** [df['prediction']] of the rows that a query returned. *)
Definition predictions (df : list PredictionRecord.t) : list pyfloat :=
  map PredictionRecord.prediction df.

(** The three dictionaries that [check_data_drift] returns. *)
Inductive DriftInfo : Type :=
| DriftError (error : Text)
| InsufficientData      (* {"message": "Insufficient data for drift detection"} *)
| DriftReport (drift_detected : bool)
    (drift_score recent_mean older_mean threshold : pyfloat).

(** [check_data_drift], given what the two queries return: the rows not
    older than 7 days and the rows older than 14 days, the 100 newest of
    each; a query that raises, or the connection before it, is an
    exception in the place of its rows.  The result comes with the records
    written to the log of the monitor.  [mean] is [Series.mean]. *)
Definition check_data_drift_with (mean : list pyfloat -> pyfloat)
    (recent_df older_df : exn + list PredictionRecord.t)
  : DriftInfo * list LogRecord :=
  match recent_df with
  | inl e =>
      (DriftError (str e), [(ERROR, Msg (Format "Error checking data drift: " e))])
  | inr recent_df =>
      match older_df with
      | inl e =>
          (DriftError (str e),
           [(ERROR, Msg (Format "Error checking data drift: " e))])
      | inr older_df =>
          match recent_df, older_df with
          | [], _ | _, [] => (InsufficientData, [])
          | _, _ =>
              let recent_mean := mean (predictions recent_df) in
              let older_mean := mean (predictions older_df) in
              let drift_score :=
                if pyfloat_ne older_mean (Fin 0)
                then PyFloat.div (pyfloat_abs (pyfloat_sub recent_mean older_mean))
                                 older_mean
                else Fin 0 in
              (DriftReport (PyFloat.gt drift_score (Fin 0.1)) drift_score
                 recent_mean older_mean (Fin 0.1), [])
          end
      end
  end.

(** [check_data_drift] with the mean of the columns of this model. *)
Definition check_data_drift (recent_df older_df : exn + list PredictionRecord.t)
  : DriftInfo * list LogRecord :=
  check_data_drift_with DataFrame.mean recent_df older_df.

(** [drift_info.get("drift_detected", False)] *)
Definition get_drift_detected (d : DriftInfo) : bool :=
  match d with
  | DriftReport b _ _ _ _ => b
  | _ => false
  end.

Section PandasAggregates.

(** The aggregates that [get_prediction_stats] takes from pandas over the
    rows (the range of the dates, the mean, median, standard deviation,
    minimum and maximum of the predictions, and the number of rows a day)
    are a parameter. *)
Variable Aggregates : Type.
Variable aggregate : list PredictionRecord.t -> Aggregates.

(** The three dictionaries that [get_prediction_stats] returns. *)
Inductive PredictionStats : Type :=
| StatsError (error : Text)
| NoPredictions           (* {"message": "No predictions found", "count": 0} *)
| Stats (total_predictions : nat) (aggregates : Aggregates).

(** [get_prediction_stats], given what its query returns. *)
Definition get_prediction_stats (df : exn + list PredictionRecord.t)
  : PredictionStats * list LogRecord :=
  match df with
  | inl e =>
      (StatsError (str e),
       [(ERROR, Msg (Format "Error getting prediction stats: " e))])
  | inr [] => (NoPredictions, [])
  | inr df => (Stats (length df) (aggregate df), [])
  end.

(** [stats.get("total_predictions", 0)] *)
Definition get_total_predictions (s : PredictionStats) : nat :=
  match s with
  | Stats n _ => n
  | _ => 0%nat
  end.

Record ModelHealth : Type := {
  status : string;
  health_score : Z;
  issues : list string;
  last_check : nat;
  recent_stats : PredictionStats;
  drift_info : DriftInfo
}.

(** [get_model_health] at the time [now], given what the query of
    [get_prediction_stats(days=1)] and the two queries of
    [check_data_drift] return.  The two methods catch their own
    exceptions, so that nothing raises in the body. *)
Definition get_model_health (now : nat)
    (day_df recent_df older_df : exn + list PredictionRecord.t)
  : ModelHealth * list LogRecord :=
  let '(stats, log1) := get_prediction_stats day_df in
  let '(drift_info, log2) := check_data_drift recent_df older_df in
  let health_score := 100%Z in
  let issues := [] in
  let '(health_score, issues) :=
    if Nat.eqb (get_total_predictions stats) 0
    then ((health_score - 30)%Z, issues ++ ["No recent predictions"])
    else if Nat.ltb (get_total_predictions stats) 10
    then ((health_score - 10)%Z, issues ++ ["Low prediction volume"])
    else (health_score, issues) in
  let '(health_score, issues) :=
    if get_drift_detected drift_info
    then ((health_score - 20)%Z, issues ++ ["Data drift detected"])
    else (health_score, issues) in
  let status :=
    if Z.leb 90 health_score then "healthy"
    else if Z.leb 70 health_score then "warning"
    else "critical" in
  ({| status := status; health_score := health_score; issues := issues;
      last_check := now; recent_stats := stats; drift_info := drift_info |},
   log1 ++ log2).

End PandasAggregates.

Arguments StatsError {Aggregates} error.
Arguments NoPredictions {Aggregates}.
Arguments Stats {Aggregates} total_predictions aggregates.
Arguments get_prediction_stats {Aggregates} aggregate df.
Arguments get_total_predictions {Aggregates} s.
Arguments status {Aggregates} m.
Arguments health_score {Aggregates} m.
Arguments issues {Aggregates} m.
Arguments last_check {Aggregates} m.
Arguments recent_stats {Aggregates} m.
Arguments drift_info {Aggregates} m.
Arguments get_model_health {Aggregates} aggregate now day_df recent_df older_df.

(** A row of the log with the prediction [p]. *)
Definition row_with_prediction (p : pyfloat) : PredictionRecord.t :=
  {| PredictionRecord.id := 1; PredictionRecord.timestamp := 0;
     PredictionRecord.input_features := HousingFeatures_dict canonical_features;
     PredictionRecord.prediction := p;
     PredictionRecord.model_version := VStr "1.0.0" |}.

(** * Properties *)

(** ** Validation of the request *)

Section Validation.

Implicit Types (body : gmap string pyfloat) (fi : Pydantic.FieldInfo)
  (v : pyfloat).

Lemma ge_half_not_le_zero v :
  PyFloat.ge v (Fin 0.5) = true -> PyFloat.le v (Fin 0) = false.
Proof.
  destruct v as [q| | |]; simpl; try done.
  intros H. apply Qle_bool_iff in H.
  destruct (Qle_bool q 0) eqn:E; [|done].
  apply Qle_bool_iff in E.
  assert (0.5 <= 0)%Q as C by (eapply Qle_trans; eauto).
  vm_compute in C. by exfalso.
Qed.

Lemma ge_half_gt_zero v :
  PyFloat.ge v (Fin 0.5) = true -> PyFloat.gt v (Fin 0) = true.
Proof.
  intros H. pose proof (ge_half_not_le_zero v H) as H0.
  destruct v as [q| | |]; simpl in *; try done.
  unfold PyFloat.Qlt_bool. by rewrite H0.
Qed.

(** What the validators of the fields of [HousingFeatures] return: the
    submitted value when no constraint is violated, else the first of the
    violated constraints. *)
Lemma validate_first fi body :
  In fi HousingFeatures_fields ->
  match Pydantic.validate fi body with
  | inl e => exists rest, violated fi body = e :: rest
  | inr v => violated fi body = [] /\ body !! Pydantic.name fi = Some v
  end.
Proof.
  intros Hin. unfold Pydantic.validate, violated.
  destruct (body !! Pydantic.name fi) as [v|] eqn:Hv; [|by eexists].
  unfold Pydantic.validators. cbn [Pydantic.apply_validators].
  unfold Pydantic.number_size_validator, PyFloat.ge.
  destruct (PyFloat.le (Fin (Pydantic.ge fi)) v) eqn:Hge; cbn [negb];
    [|by eexists].
  destruct (PyFloat.le v (Fin (Pydantic.le fi))) eqn:Hle; cbn [negb];
    [|by eexists].
  cbn [app].
  repeat (destruct Hin as [<-|Hin]; [cbn; try done|]); [|done].
  unfold validate_ave_occup.
  destruct (PyFloat.le v (Fin 0)); [by eexists|done].
Qed.

Lemma errors_map_validate body (fs : list Pydantic.FieldInfo) :
  Forall (fun fi => In fi HousingFeatures_fields) fs ->
  Pydantic.errors (map (fun fi => Pydantic.validate fi body) fs) =
  flat_map (fun fi => take 1 (violated fi body)) fs.
Proof.
  induction 1 as [|fi fs Hfi _ IH]; [done|].
  cbn [map flat_map Pydantic.errors].
  pose proof (validate_first fi body Hfi) as Hv.
  destruct (Pydantic.validate fi body) as [e|v].
  - destruct Hv as [rest ->]. cbn. by rewrite IH.
  - destruct Hv as [-> _]. cbn. by rewrite IH.
Qed.

Lemma fields_In :
  Forall (fun fi => In fi HousingFeatures_fields) HousingFeatures_fields.
Proof. apply Forall_forall. intros fi Hfi. by apply list_elem_of_In. Qed.

(** The two outcomes of the construction. *)
Lemma HousingFeatures_init_cases body :
  match HousingFeatures_init body with
  | inr f =>
      map (fun fi => Pydantic.validate fi body) HousingFeatures_fields =
      map inr [MedInc f; HouseAge f; AveRooms f; AveBedrms f;
               Population f; AveOccup f; Latitude f; Longitude f]
  | inl errs =>
      errs = first_violations body /\ errs <> []
  end.
Proof.
  unfold first_violations.
  rewrite <- (errors_map_validate body _ fields_In).
  unfold HousingFeatures_init, HousingFeatures_fields.
  cbn [map].
  repeat match goal with
         | |- context [Pydantic.validate ?fi body] =>
             destruct (Pydantic.validate fi body); [by split|]
         end.
  done.
Qed.


Lemma validate_inr_iff fi body v :
  In fi HousingFeatures_fields ->
  Pydantic.validate fi body = inr v <->
  body !! Pydantic.name fi = Some v /\ in_range fi v.
Proof.
  intros Hin. split.
  - intros Hval. pose proof (validate_first fi body Hin) as Hf.
    rewrite Hval in Hf. destruct Hf as [Hnone Hv]. split; [done|].
    unfold violated in Hnone. rewrite Hv in Hnone. unfold in_range.
    destruct (PyFloat.ge v (Fin (Pydantic.ge fi))); [|done].
    destruct (PyFloat.le v (Fin (Pydantic.le fi))); done.
  - intros [Hv [Hge Hle]]. unfold Pydantic.validate. rewrite Hv.
    unfold Pydantic.validators. cbn [Pydantic.apply_validators].
    unfold Pydantic.number_size_validator. rewrite Hge, Hle. cbn [negb].
    repeat (destruct Hin as [<-|Hin]; [cbn; try done|]); [|done].
    unfold validate_ave_occup. by rewrite (ge_half_not_le_zero v Hge).
Qed.

Lemma accepted_iff_acceptable body :
  (exists f, HousingFeatures_init body = inr f) <-> acceptable body.
Proof.
  split.
  - intros [f Hf]. pose proof (HousingFeatures_init_cases body) as Hc.
    rewrite Hf in Hc. unfold HousingFeatures_fields in Hc. cbn [map] in Hc.
    injection Hc as H1 H2 H3 H4 H5 H6 H7 H8.
    apply validate_inr_iff in H1, H2, H3, H4, H5, H6, H7, H8;
      try (cbn; tauto).
    split.
    + unfold HousingFeatures_fields. repeat constructor; by eexists.
    + exists (AveOccup f). split; [apply H6|].
      apply ge_half_gt_zero. apply H6.
  - intros [Hall _]. unfold HousingFeatures_fields in Hall.
    repeat match goal with
           | H : Forall _ (_ :: _) |- _ =>
               apply Forall_cons in H as [[? ?%validate_inr_iff] H];
               [|cbn; tauto]
           end.
    unfold HousingFeatures_init, HousingFeatures_fields. cbn [map].
    repeat match goal with
           | H : Pydantic.validate _ _ = _ |- _ => rewrite H; clear H
           end.
    by eexists.
Qed.

Lemma lt_not_ge v a : PyFloat.lt v (Fin a) = true -> PyFloat.ge v (Fin a) = false.
Proof.
  destruct v as [q| | |]; cbn; try done.
  unfold PyFloat.Qlt_bool. by destruct (Qle_bool a q).
Qed.

Lemma gt_not_le v a : PyFloat.gt v (Fin a) = true -> PyFloat.le v (Fin a) = false.
Proof.
  destruct v as [q| | |]; cbn; try done.
  unfold PyFloat.Qlt_bool. by destruct (Qle_bool q a).
Qed.

Lemma rejected_iff body :
  (exists errs, HousingFeatures_init body = inl errs) <-> ~ acceptable body.
Proof.
  rewrite <- accepted_iff_acceptable.
  destruct (HousingFeatures_init body) as [errs|f].
  - split; [intros _ [f Hf]; done | by eexists].
  - split; [intros [errs He]; done | intros Hn; exfalso; apply Hn; by eexists].
Qed.

Lemma not_in_range_rejected body fi v :
  In fi HousingFeatures_fields ->
  body !! Pydantic.name fi = Some v ->
  ~ in_range fi v ->
  exists errs, HousingFeatures_init body = inl errs.
Proof.
  intros Hin Hv Hn. apply rejected_iff. intros [Hall _].
  rewrite Forall_forall in Hall.
  destruct (Hall fi) as (v' & Hv' & Hr); [by apply list_elem_of_In|].
  rewrite Hv in Hv'. by injection Hv' as <-.
Qed.

End Validation.

Section ValidationOfPredict.

Implicit Types (body : gmap string pyfloat) (fi : Pydantic.FieldInfo)
  (v : pyfloat).

Local Ltac field_cases H :=
  repeat (destruct H as [<-|H]; [|]); [..|destruct H].

Local Ltac split_fields H :=
  unfold HousingFeatures_fields in H;
  repeat match goal with
         | H' : Forall _ (_ :: _) |- _ =>
             apply Forall_cons in H' as [(? & ? & ?) H']
         end.

Local Ltac solve_member :=
  eexists; split;
  [ first [ rewrite lookup_insert_eq; reflexivity
          | rewrite lookup_insert_ne by done; eassumption ]
  | first [ eassumption | by vm_compute ] ].

Lemma boundary_acceptable body fi :
  In fi HousingFeatures_fields ->
  acceptable body ->
  acceptable (<[Pydantic.name fi := Fin (Pydantic.ge fi)]> body) /\
  acceptable (<[Pydantic.name fi := Fin (Pydantic.le fi)]> body).
Proof.
  intros Hin [Hall (o & Ho & Hpos)]. split_fields Hall.
  match goal with
  | H : body !! Pydantic.name AveOccup_field = Some _ |- _ =>
      cbn in H; rewrite Ho in H; injection H as <-
  end.
  field_cases Hin; cbn [Pydantic.name Pydantic.ge Pydantic.le
    MedInc_field HouseAge_field AveRooms_field AveBedrms_field
    Population_field AveOccup_field Latitude_field Longitude_field];
    (split;
     (split;
     [ unfold HousingFeatures_fields;
       repeat first [apply Forall_nil_2 | apply Forall_cons_2];
       cbn [Pydantic.name MedInc_field HouseAge_field AveRooms_field
         AveBedrms_field Population_field AveOccup_field Latitude_field
         Longitude_field];
       solve_member
     | solve_member ])).
Qed.

Lemma beyond_boundary_unacceptable body fi v :
  In fi HousingFeatures_fields ->
  body !! Pydantic.name fi = Some v ->
  PyFloat.lt v (Fin (Pydantic.ge fi)) = true \/
  PyFloat.gt v (Fin (Pydantic.le fi)) = true ->
  ~ acceptable body.
Proof.
  intros Hin Hv Hout [Hall _]. rewrite Forall_forall in Hall.
  destruct (Hall fi) as (v' & Hv' & Hge & Hle); [by apply list_elem_of_In|].
  rewrite Hv in Hv'. injection Hv' as <-.
  destruct Hout as [H|H].
  - apply lt_not_ge in H. congruence.
  - apply gt_not_le in H. congruence.
Qed.

Lemma zero_occupancy_unacceptable body :
  body !! "AveOccup" = Some (Fin 0) -> ~ acceptable body.
Proof.
  intros Hv. apply (beyond_boundary_unacceptable body AveOccup_field (Fin 0));
    [cbn; tauto | done | by left].
Qed.

(** The rule of [validate_ave_occup] is never the one reported: a value
    that it refuses has failed the lower bound before. *)
Lemma ave_occup_rule_shadowed body msg :
  ~ In ("AveOccup", Pydantic.ValueError msg) (first_violations body).
Proof.
  unfold first_violations, HousingFeatures_fields. cbn [flat_map].
  rewrite !in_app_iff.
  assert (forall fi, Pydantic.class_validators fi = [] ->
            ~ In ("AveOccup", Pydantic.ValueError msg) (take 1 (violated fi body)))
    as Hplain.
  { intros fi Hcv. unfold violated. rewrite Hcv.
    destruct (body !! Pydantic.name fi) as [v|]; cbn [flat_map].
    - destruct (PyFloat.ge v _), (PyFloat.le v _); cbn;
        intros H; intuition discriminate.
    - cbn; intros H; intuition discriminate. }
  intros H.
  repeat (destruct H as [H|H]; [try (by eapply Hplain; [|exact H])|]);
    [|destruct H].
  unfold violated in H. cbn [Pydantic.name Pydantic.ge Pydantic.le
    Pydantic.class_validators AveOccup_field flat_map] in H.
  destruct (body !! "AveOccup") as [v|];
    [|cbn in H; by destruct H as [H|[]]].
  destruct (PyFloat.ge v (Fin 0.5)) eqn:Hge.
  - unfold validate_ave_occup in H.
    rewrite (ge_half_not_le_zero v Hge) in H.
    destruct (PyFloat.le v (Fin 20)); cbn in H; [done|].
    by destruct H as [H|[]].
  - cbn in H. by destruct H as [H|[]].
Qed.

End ValidationOfPredict.

Lemma respond_not_422 {A} `{Renderable A} (r : exn + A) errs :
  respond r <> Http422 errs.
Proof.
  destruct r as [[]|a]; cbn; [discriminate..|].
  destruct (renderable a); discriminate.
Qed.

Lemma post_predict_422 self body w errs w' :
  post_predict self body w = (Http422 errs, w') <->
  HousingFeatures_init body = inl errs /\ w' = w.
Proof.
  unfold post_predict. destruct (HousingFeatures_init body) as [errs'|f].
  - split; [intros [= -> ->]; done | intros [[= ->] ->]; done].
  - destruct (predict_price self f w) as [r w'']. split; [|intros [? _]; done].
    intros [= H _]. by apply respond_not_422 in H.
Qed.

Lemma post_predict_accepted self body w f :
  HousingFeatures_init body = inr f ->
  post_predict self body w =
  (respond (predict_price self f w).1, (predict_price self f w).2).
Proof.
  unfold post_predict. intros ->. by destruct (predict_price self f w).
Qed.

(** C1 (as amended).  A [/predict] request is accepted, and handed to the
    handler, if and only if each of the 8 fields is present and lies in
    its inclusive range (and then AveOccup is greater than 0); otherwise it
    is answered 422 and nothing else happens.  A value exactly at a bound
    is accepted, a value beyond a bound is rejected, and so is
    AveOccup = 0.  The rejection lists, for every field that violates a
    constraint, the first constraint that this field violates, in the
    order of the fields: several faulty fields are all reported, and every
    violated constraint has its field reported, but a field is reported
    once; the rule "AveOccup must be greater than 0" is never the one
    reported, since the lower bound 0.5 fails before it. *)
Theorem predict_validation (self : MLModelService) (body : gmap string pyfloat)
    (w : World) :
  (acceptable body <->
   exists f, HousingFeatures_init body = inr f /\
             post_predict self body w =
             (respond (predict_price self f w).1, (predict_price self f w).2)) /\
  (~ acceptable body <-> exists errs, post_predict self body w = (Http422 errs, w)) /\
  (forall errs, post_predict self body w = (Http422 errs, w) ->
     errs = first_violations body /\ errs <> [] /\
     (forall fi c, In fi HousingFeatures_fields -> In c (violated fi body) ->
        exists c', In c' (violated fi body) /\ In c' errs) /\
     (forall msg, ~ In ("AveOccup", Pydantic.ValueError msg) errs)) /\
  (forall fi, In fi HousingFeatures_fields -> acceptable body ->
     acceptable (<[Pydantic.name fi := Fin (Pydantic.ge fi)]> body) /\
     acceptable (<[Pydantic.name fi := Fin (Pydantic.le fi)]> body)) /\
  (forall fi v, In fi HousingFeatures_fields ->
     body !! Pydantic.name fi = Some v ->
     PyFloat.lt v (Fin (Pydantic.ge fi)) = true \/
     PyFloat.gt v (Fin (Pydantic.le fi)) = true ->
     ~ acceptable body) /\
  (body !! "AveOccup" = Some (Fin 0) -> ~ acceptable body).
Proof.
  refine (conj _ (conj _ (conj _ (conj _ (conj _ _))))).
  - split.
    + intros [f Hf]%accepted_iff_acceptable. exists f.
      split; [done|]. by apply post_predict_accepted.
    + intros (f & Hf & _). apply accepted_iff_acceptable. by exists f.
  - split.
    + intros [errs He]%rejected_iff. exists errs. by apply post_predict_422.
    + intros [errs He]. apply rejected_iff. exists errs.
      by destruct (proj1 (post_predict_422 _ _ _ _ _) He) as [? _].
  - intros errs He.
    destruct (proj1 (post_predict_422 _ _ _ _ _) He) as [He' _]. clear He.
    rename He' into He.
    pose proof (HousingFeatures_init_cases body) as Hc. rewrite He in Hc.
    destruct Hc as [-> Hne]. refine (conj _ (conj _ (conj _ _))); [done|done| |].
    + intros fi c Hfi Hc. destruct (violated fi body) as [|c' rest] eqn:Hv;
        [destruct Hc|].
      exists c'. split; [by left|].
      unfold first_violations. apply in_flat_map. exists fi.
      split; [done|]. rewrite Hv. by left.
    + apply ave_occup_rule_shadowed.
  - intros fi. apply boundary_acceptable.
  - intros fi v. apply beyond_boundary_unacceptable.
  - apply zero_occupancy_unacceptable.
Qed.

(** The rejection of a request with two faulty fields names both. *)
Lemma predict_validation_witness :
  first_violations two_faults_input =
  [("MedInc", Pydantic.NumberNotGe 0); ("AveOccup", Pydantic.NumberNotGe 0.5)].
Proof.
  pose proof (predict_validation empty_service two_faults_input
                (fresh_world None true)) as (_ & _ & H & _).
  symmetry.
  exact (proj1 (H [("MedInc", Pydantic.NumberNotGe 0);
                   ("AveOccup", Pydantic.NumberNotGe 0.5)] eq_refl)).
Defined.

(** C1 as it is stated fails for AveOccup = 0: the request violates the
    lower bound and the rule "AveOccup must be greater than 0", and the
    rejection reports the lower bound only. *)
Lemma predict_validation_reports_first_only :
  exists errs c,
    post_predict empty_service zero_occupancy_input (fresh_world None true) =
    (Http422 errs, fresh_world None true) /\
    In c (violated_constraints zero_occupancy_input) /\
    ~ In c errs.
Proof.
  exists [("AveOccup", Pydantic.NumberNotGe 0.5)],
         ("AveOccup", Pydantic.ValueError "AveOccup must be greater than 0").
  split; [reflexivity|]. split.
  - vm_compute. tauto.
  - intros [H|[]]. discriminate H.
Qed.

(** ** The start of the service *)

Section Startup.

Variable env : Environment.

Lemma load_local_model_first_existing files self w :
  load_local_model env files self w =
  match first_existing (model_store env) files with
  | None => (inr self, w)
  | Some (path, inr m) =>
      (inr (set_model m (VStr ("Local file: " +:+ path)) (VStr "1.0.0") self),
       set_logger (logger w ++
                   [(INFO, Msg (Literal ("Model loaded from " +:+ path)))]) w)
  | Some (path, inl e) => (inl e, w)
  end.
Proof.
  induction files as [|[model_name path] files IH]; [done|].
  cbn [load_local_model first_existing].
  destruct (model_store env !! path) as [[e|m]|]; [done|done|apply IH].
Qed.

Local Ltac run :=
  unfold MLModelService_init, load_model, load_scaler, setup_database,
    try_except, bind, lift, ret, raise, logger_info, logger_error,
    datetime_now, sqlite3_connect.

Local Ltac finish :=
  eexists _, _; split; [reflexivity|]; cbn;
  split; [done|]; split; [by simplify_map_eq|done].

Lemma init_outcome w :
  match resolution env with
  | inl e =>
      exists w', MLModelService_init env w =
                 (inl (RuntimeError (Format "Could not load model: " e)), w')
  | inr found =>
      match scaler_store env with
      | Some (inl e) =>
          exists w', MLModelService_init env w =
                     (inl (RuntimeError (Format "Could not load model: " e)), w')
      | _ =>
          exists self w',
            MLModelService_init env w = (inr self, w') /\
            model self = fst <$> found /\
            model_info self !! "source" = snd <$> found /\
            db w' = db w
      end
  end.
Proof.
  unfold resolution. run.
  destruct w as [[rws nid flt] lg mt ck].
  destruct (mlflow_registry env) as [e|m].
  - rewrite load_local_model_first_existing.
    destruct (first_existing (model_store env) model_files)
      as [[path [e'|m]]|]; cbn.
    + by eexists.
    + destruct (scaler_store env) as [[e'|s]|]; cbn;
        [by eexists| |]; destruct flt as [[]|]; cbn; finish.
    + destruct (scaler_store env) as [[e'|s]|]; cbn;
        [by eexists| |]; destruct flt as [[]|]; cbn; finish.
  - cbn. destruct (scaler_store env) as [[e'|s]|]; cbn;
      [by eexists| |]; destruct flt as [[]|]; cbn; finish.
Qed.

Lemma resolution_inl e :
  resolution env = inl e <->
  exists e0 path,
    mlflow_registry env = inl e0 /\
    first_existing (model_store env) model_files = Some (path, inl e).
Proof.
  unfold resolution. destruct (mlflow_registry env) as [e0|m].
  - destruct (first_existing (model_store env) model_files)
      as [[path [e'|m]]|].
    + split; [intros [= ->]; by eexists _, _ | by intros (? & ? & _ & [= -> ->])].
    + split; [done | by intros (? & ? & _ & [=])].
    + split; [done | by intros (? & ? & _ & [=])].
  - split; [done | by intros (? & ? & [=] & _)].
Qed.

Lemma fatal_iff w :
  fatal env w <->
  (exists e, resolution env = inl e) \/
  (exists e, scaler_store env = Some (inl e)).
Proof.
  unfold fatal. pose proof (init_outcome w) as H.
  destruct (resolution env) as [e|found].
  - destruct H as [w' H]. split; [intros _; left; by eexists | by eexists _, _].
  - destruct (scaler_store env) as [[e|s]|].
    + destruct H as [w' H].
      split; [intros _; right; by eexists | by eexists _, _].
    + destruct H as (self & w' & H & _). rewrite H.
      split; [by intros (? & ? & [=]) | by intros [[? [=]]|[? [=]]]].
    + destruct H as (self & w' & H & _). rewrite H.
      split; [by intros (? & ? & [=]) | by intros [[? [=]]|[? [=]]]].
Qed.

End Startup.

Lemma predict_price_without_model self features w :
  model self = None ->
  predict_price self features w =
  (inl (HTTPException 500 (str (RuntimeError (Literal "Model not loaded")))),
   set_logger
     (logger w ++
      [(ERROR, Msg (Format "Prediction endpoint error: "
                      (RuntimeError (Literal "Model not loaded"))))]) w).
Proof.
  intros Hm. unfold predict_price, predict, try_except, bind. by rewrite Hm.
Qed.

(** C2 (as amended).  When the registry resolves the production model,
    that model is served.  When resolving it fails, for any reason, the
    start falls back to the first local model file that exists, in the
    order gradient boosting, random forest, linear regression, and loads
    that one file.  The start is fatal if and only if loading raises: the
    registry failed and the first existing model file cannot be loaded (the
    files after it are not tried), or the scaler file exists and cannot be
    loaded.  When the registry fails and no model file exists the start is
    not fatal: the service starts without a model and answers every
    [/predict] request whose body passes the validation with status 500
    (a body that fails it is answered 422, as by any service). *)
Theorem model_store_start (env : Environment) (w : World) :
  first_existing (model_store env) model_files =
    match model_store env !! "models/gradient_boosting.joblib",
          model_store env !! "models/random_forest.joblib",
          model_store env !! "models/linear_regression.joblib" with
    | Some c, _, _ => Some ("models/gradient_boosting.joblib", c)
    | None, Some c, _ => Some ("models/random_forest.joblib", c)
    | None, None, Some c => Some ("models/linear_regression.joblib", c)
    | None, None, None => None
    end /\
  (forall m, mlflow_registry env = inr m -> scaler_loadable env ->
     exists self w',
       MLModelService_init env w = (inr self, w') /\
       model self = Some m /\
       model_info self !! "source" = Some (VStr "MLflow Registry")) /\
  (forall e, mlflow_registry env = inl e -> scaler_loadable env ->
     match first_existing (model_store env) model_files with
     | Some (path, inr m) =>
         exists self w',
           MLModelService_init env w = (inr self, w') /\
           model self = Some m /\
           model_info self !! "source" = Some (VStr ("Local file: " +:+ path))
     | Some (path, inl e') =>
         exists w',
           MLModelService_init env w =
           (inl (RuntimeError (Format "Could not load model: " e')), w')
     | None =>
         exists self w',
           MLModelService_init env w = (inr self, w') /\
           model self = None /\
           forall body w0,
             (acceptable body ->
              exists d w1, post_predict self body w0 = (HttpError 500 d, w1)) /\
             (~ acceptable body ->
              exists errs, post_predict self body w0 = (Http422 errs, w0))
     end) /\
  (fatal env w <->
   (exists e0 path e,
      mlflow_registry env = inl e0 /\
      first_existing (model_store env) model_files = Some (path, inl e)) \/
   (exists e, scaler_store env = Some (inl e))).
Proof.
  refine (conj _ (conj _ (conj _ _))).
  - cbn. by repeat case_match.
  - intros m Hreg Hsc. pose proof (init_outcome env w) as H.
    unfold resolution in H. rewrite Hreg in H.
    destruct (scaler_store env) as [[e|s]|] eqn:Hs; [by destruct (Hsc e)| |];
      destruct H as (self & w' & H & Hm & Hi & _); by eexists _, _.
  - intros e Hreg Hsc. pose proof (init_outcome env w) as H.
    unfold resolution in H. rewrite Hreg in H.
    destruct (first_existing (model_store env) model_files)
      as [[path [e'|m]]|]; [done| |].
    + destruct (scaler_store env) as [[e'|s]|] eqn:Hs; [by destruct (Hsc e')| |];
        destruct H as (self & w' & H & Hm & Hi & _); by eexists _, _.
    + destruct (scaler_store env) as [[e'|s]|] eqn:Hs; [by destruct (Hsc e')| |];
        destruct H as (self & w' & H & Hm & Hi & _);
        (eexists _, _; split; [done|]; split; [done|]);
        (intros body w0; split;
         [ intros [f Hf]%accepted_iff_acceptable;
           rewrite (post_predict_accepted _ _ _ _ Hf);
           rewrite (predict_price_without_model _ _ _ Hm); by eexists _, _
         | intros [errs He]%rejected_iff; exists errs;
           by apply post_predict_422 ]).
  - rewrite fatal_iff. split.
    + intros [[e He]|Hs]; [left|by right].
      apply resolution_inl in He as (e0 & path & ? & ?). by eexists _, _, _.
    + intros [(e0 & path & e & ? & ?)|Hs]; [left|by right].
      exists e. apply resolution_inl. by eexists _, _.
Qed.

(** With the registry out of reach and the random forest and linear
    regression files present, the random forest is served. *)
Lemma model_store_start_witness :
  exists self w',
    MLModelService_init local_environment (fresh_world None true) = (inr self, w') /\
    model self = Some (constant_model (Fin 2)) /\
    model_info self !! "source" =
      Some (VStr ("Local file: " +:+ "models/random_forest.joblib")).
Proof.
  pose proof (model_store_start local_environment (fresh_world None true))
    as (_ & _ & H & _).
  refine (H (Exception "registry unreachable") eq_refl _).
  intros e. discriminate.
Defined.

(** C2 as it is stated fails when the registry is out of reach and no
    local model file exists: no path resolves a model, and the start is
    not fatal, the service starts without a model. *)
Lemma start_without_model_not_fatal :
  ~ resolvable bare_environment /\
  ~ fatal bare_environment (fresh_world None true) /\
  exists self w',
    MLModelService_init bare_environment (fresh_world None true) = (inr self, w') /\
    model self = None.
Proof.
  split; [|split].
  - intros [[m H]|(model_name & path & m & _ & H)]; [done|].
    cbn in H. by rewrite lookup_empty in H.
  - intros (e & w' & H). by vm_compute in H.
  - by eexists _, _.
Qed.

(** The start is fatal when the first existing file is damaged, although
    the next file of the list would load. *)
Lemma damaged_first_file_is_fatal :
  fatal damaged_first_environment (fresh_world None true) /\
  model_store damaged_first_environment !! "models/random_forest.joblib" =
    Some (inr (constant_model (Fin 2))).
Proof. split; [by eexists _, _ | done]. Qed.

(** ** The prediction pipeline *)

Section Pipeline.

Variable self : MLModelService.

Implicit Types (features : HousingFeatures) (y : pyfloat) (w : World).

Local Ltac run :=
  unfold predict, try_except, bind, lift, ret, raise, timed, log_prediction,
    prediction_counter_inc, sqlite3_connect, cursor_execute_insert,
    conn_commit, datetime_now, logger_info, logger_error.

(** [predict] returns a value exactly when the model infers it, and then
    it has the effects of a prediction. *)
Lemma predict_returns features w y w' :
  predict self features w = (inr y, w') ->
  infers self features y /\
  prediction_effects self features y w w' /\
  clock w' = (if fault (db w) is Some ConnectFails then clock w
              else S (clock w)).
Proof.
  unfold infers, prediction_effects, logged_row. run.
  destruct w as [[rws nid flt] lg mt ck]. cbn.
  destruct (model self) as [m|] eqn:Hm; [|done].
  destruct (preprocess_input self features) as [e|X] eqn:HX; [done|].
  destruct (model_predict m X) as [e|[|y0 ys]] eqn:Hy;
    destruct mt as [mt|]; cbn; try done;
    destruct flt as [[]|]; cbn; intros [= <- <-]; cbn;
    (split; [by eexists _, _, _|]); repeat split; by eexists.
Qed.

Lemma predict_succeeds features w y :
  infers self features y -> exists w', predict self features w = (inr y, w').
Proof.
  intros (m & X & ys & Hm & HX & Hy). run. rewrite Hm, HX, Hy.
  destruct w as [[rws nid flt] lg mt ck]. cbn.
  destruct mt as [mt|]; destruct flt as [[]|]; cbn; by eexists.
Qed.


End Pipeline.

(** ** [POST /predict] *)

Lemma predict_price_unfold self features w :
  predict_price self features w =
  match predict self features w with
  | (inr y, w1) =>
      (inr {| PredictionResponse.prediction := PyFloat.round2 y;
              PredictionResponse.model_version :=
                dict_get (model_info self) "version" "unknown";
              PredictionResponse.timestamp := clock w1;
              PredictionResponse.confidence_interval :=
                {[ "lower" := PyFloat.round2 (PyFloat.mul y (Fin 0.85));
                   "upper" := PyFloat.round2 (PyFloat.mul y (Fin 1.15)) ]} |},
       set_clock (S (clock w1)) w1)
  | (inl e, w1) =>
      (inl (HTTPException 500 (str e)),
       set_logger
         (logger w1 ++ [(ERROR, Msg (Format "Prediction endpoint error: " e))])
         w1)
  end.
Proof.
  unfold predict_price, try_except, bind.
  by destruct (predict self features w) as [[e|y] w1].
Qed.

(** A response can be rendered when its three floats are finite. *)
Lemma renderable_response p v now a b :
  renderable {| PredictionResponse.prediction := p;
                PredictionResponse.model_version := v;
                PredictionResponse.timestamp := now;
                PredictionResponse.confidence_interval :=
                  {[ "lower" := a; "upper" := b ]} |} =
  PyFloat.isfinite p && (PyFloat.isfinite a && PyFloat.isfinite b).
Proof.
  unfold renderable, PredictionResponse_renderable.
  cbn [PredictionResponse.prediction PredictionResponse.confidence_interval].
  f_equal. vm_compute. by destruct a, b.
Qed.

(** The response that [predict_price] makes from [y] can be rendered
    exactly when [y] is finite. *)
Lemma renderable_prediction y v now :
  renderable {| PredictionResponse.prediction := PyFloat.round2 y;
                PredictionResponse.model_version := v;
                PredictionResponse.timestamp := now;
                PredictionResponse.confidence_interval :=
                  {[ "lower" := PyFloat.round2 (PyFloat.mul y (Fin 0.85));
                     "upper" := PyFloat.round2 (PyFloat.mul y (Fin 1.15)) ]} |} =
  PyFloat.isfinite y.
Proof. rewrite renderable_response. by destruct y. Qed.

Lemma post_predict_200 self body w resp w' :
  post_predict self body w = (Http200 resp, w') <->
  exists features,
    HousingFeatures_init body = inr features /\
    predict_price self features w = (inr resp, w') /\
    renderable resp = true.
Proof.
  unfold post_predict. destruct (HousingFeatures_init body) as [errs|f].
  - split; [done | by intros (? & [=] & _)].
  - destruct (predict_price self f w) as [r w1] eqn:Hp. split.
    + destruct r as [e|a]; cbn; [by destruct e|].
      destruct (renderable a) eqn:Hr; [|done].
      intros [= -> ->]. by exists f.
    + intros (f' & [= <-] & Hp' & Hr). rewrite Hp in Hp'.
      injection Hp' as -> ->. cbn. by rewrite Hr.
Qed.

(** The answer to a request whose features are accepted, after what
    [predict] returns for them. *)
Lemma post_predict_of_predict self body w features :
  HousingFeatures_init body = inr features ->
  post_predict self body w =
  match predict self features w with
  | (inr y, w1) =>
      (if PyFloat.isfinite y
       then Http200
              {| PredictionResponse.prediction := PyFloat.round2 y;
                 PredictionResponse.model_version :=
                   dict_get (model_info self) "version" "unknown";
                 PredictionResponse.timestamp := clock w1;
                 PredictionResponse.confidence_interval :=
                   {[ "lower" := PyFloat.round2 (PyFloat.mul y (Fin 0.85));
                      "upper" := PyFloat.round2 (PyFloat.mul y (Fin 1.15)) ]} |}
       else HttpError 500 (Literal "Internal Server Error"),
       set_clock (S (clock w1)) w1)
  | (inl e, w1) =>
      (HttpError 500 (str e),
       set_logger
         (logger w1 ++ [(ERROR, Msg (Format "Prediction endpoint error: " e))])
         w1)
  end.
Proof.
  intros Hf. rewrite (post_predict_accepted _ _ _ _ Hf), predict_price_unfold.
  destruct (predict self features w) as [[e|y] w1]; [done|].
  cbn [fst snd respond]. by rewrite renderable_prediction.
Qed.

(** A response 200 of [/predict]: the features were accepted, the model
    inferred a value [y] for them, the response is made from [y], and the
    world has the effects of that prediction. *)
Lemma post_predict_200_inv self body w resp w' :
  post_predict self body w = (Http200 resp, w') ->
  exists features y w1,
    HousingFeatures_init body = inr features /\
    predict self features w = (inr y, w1) /\
    infers self features y /\
    prediction_effects self features y w w1 /\
    PredictionResponse.prediction resp = PyFloat.round2 y /\
    PredictionResponse.confidence_interval resp =
      {[ "lower" := PyFloat.round2 (PyFloat.mul y (Fin 0.85));
         "upper" := PyFloat.round2 (PyFloat.mul y (Fin 1.15)) ]} /\
    PredictionResponse.model_version resp =
      dict_get (model_info self) "version" "unknown" /\
    w' = set_clock (S (clock w1)) w1.
Proof.
  intros (f & Hf & Hp & _)%post_predict_200.
  rewrite predict_price_unfold in Hp.
  destruct (predict self f w) as [[e|y] w1] eqn:Hpred; [done|].
  injection Hp as <- <-.
  apply predict_returns in Hpred as Hr. destruct Hr as (Hi & He & _).
  by exists f, y, w1.
Qed.

(** A response 200 of [/predict] carries a finite prediction made from a
    finite value. *)
Lemma post_predict_200_finite self body w resp w' features y :
  post_predict self body w = (Http200 resp, w') ->
  HousingFeatures_init body = inr features ->
  infers self features y ->
  PyFloat.isfinite y = true.
Proof.
  intros H Hf Hi. rewrite (post_predict_of_predict _ _ _ _ Hf) in H.
  destruct (predict_succeeds self features w y Hi) as [w1 Hp].
  rewrite Hp in H. by destruct (PyFloat.isfinite y).
Qed.


(** C3 (as amended).  In every successful response of [/predict] the two
    ends of the confidence interval are made from the value [y] that the
    model returned, before rounding: lower is [round(y * 0.85, 2)] and upper
    is [round(y * 1.15, 2)], while the prediction of the response is
    [round(y, 2)]. *)
Theorem confidence_interval_of_raw_prediction self body w resp w' :
  post_predict self body w = (Http200 resp, w') ->
  exists features y,
    HousingFeatures_init body = inr features /\
    infers self features y /\
    PredictionResponse.prediction resp = PyFloat.round2 y /\
    PredictionResponse.confidence_interval resp !! "lower" =
      Some (PyFloat.round2 (PyFloat.mul y (Fin 0.85))) /\
    PredictionResponse.confidence_interval resp !! "upper" =
      Some (PyFloat.round2 (PyFloat.mul y (Fin 1.15))) /\
    dom (PredictionResponse.confidence_interval resp) = {[ "lower"; "upper" ]}.
Proof.
  intros (f & y & w1 & Hf & _ & Hi & _ & Hp & Hci & _)%post_predict_200_inv.
  exists f, y. rewrite Hci.
  refine (conj Hf (conj Hi (conj Hp (conj _ (conj _ _))))).
  - by simplify_map_eq.
  - by simplify_map_eq.
  - by rewrite dom_insert_L, dom_singleton_L.
Qed.

(** The model returns 1.0055: the response carries 1.01 and the interval
    made from 1.0055. *)
Lemma confidence_interval_of_raw_prediction_witness :
  exists resp w',
    post_predict (constant_service (Fin 1.0055)) canonical_input
      (fresh_world None true) = (Http200 resp, w') /\
    exists features y,
      HousingFeatures_init canonical_input = inr features /\
      infers (constant_service (Fin 1.0055)) features y /\
      PredictionResponse.prediction resp = PyFloat.round2 y /\
      PredictionResponse.confidence_interval resp !! "lower" =
        Some (PyFloat.round2 (PyFloat.mul y (Fin 0.85))) /\
      PredictionResponse.confidence_interval resp !! "upper" =
        Some (PyFloat.round2 (PyFloat.mul y (Fin 1.15))) /\
      dom (PredictionResponse.confidence_interval resp) = {[ "lower"; "upper" ]}.
Proof.
  eexists _, _. split; [reflexivity|].
  eapply (confidence_interval_of_raw_prediction _ _ (fresh_world None true)).
  reflexivity.
Defined.

(** C3 as it is stated fails when the model returns 1.0055: the response
    carries the prediction 1.01 and the lower end 0.85, and
    [round(1.01 * 0.85, 2)] is 0.86. *)
Lemma confidence_interval_not_of_response_prediction :
  exists resp w' lower,
    post_predict (constant_service (Fin 1.0055)) canonical_input
      (fresh_world None true) = (Http200 resp, w') /\
    PyFloat.eqb (PredictionResponse.prediction resp) (Fin 1.01) = true /\
    PredictionResponse.confidence_interval resp !! "lower" = Some lower /\
    PyFloat.eqb lower (Fin 0.85) = true /\
    PyFloat.eqb lower
      (PyFloat.round2
         (PyFloat.mul (PredictionResponse.prediction resp) (Fin 0.85))) = false.
Proof.
  eexists _, _, _. split; [reflexivity|].
  split; [by vm_compute|]. split; [reflexivity|].
  split; by vm_compute.
Qed.

(** C4 (as amended).  A successful [/predict] call whose insertion into the
    prediction log does not fail appends exactly one row; the row stores
    the value [y] that the model returned, not rounded, with the submitted
    features, and the prediction of the response is [round(y, 2)].  When
    the insertion fails the call succeeds all the same and the log is
    unchanged. *)
Theorem successful_predict_logs_raw_prediction self body w resp w' :
  post_predict self body w = (Http200 resp, w') ->
  exists features y,
    HousingFeatures_init body = inr features /\
    infers self features y /\
    PredictionResponse.prediction resp = PyFloat.round2 y /\
    (fault (db w) = None ->
     exists row,
       rows (db w') = rows (db w) ++ [row] /\
       PredictionRecord.prediction row = y /\
       PredictionRecord.input_features row = HousingFeatures_dict features /\
       PredictionRecord.id row = next_id (db w) /\
       PredictionRecord.model_version row = PredictionResponse.model_version resp) /\
    (fault (db w) <> None -> rows (db w') = rows (db w)).
Proof.
  intros (f & y & w1 & Hf & _ & Hi & He & Hp & _ & Hv & ->)%post_predict_200_inv.
  exists f, y. refine (conj Hf (conj Hi (conj Hp (conj _ _)))).
  - intros Hnone. destruct He as (_ & _ & He). rewrite Hnone in He.
    destruct He as (Hrows & _). exists (logged_row self f y w).
    by rewrite Hv.
  - intros Hsome. destruct He as (_ & _ & He).
    destruct (fault (db w)); [|done]. destruct He as [Hdb _]. cbn.
    by rewrite Hdb.
Qed.

Lemma successful_predict_logs_raw_prediction_witness :
  exists resp w',
    post_predict (constant_service (Fin 1.0055)) canonical_input
      (fresh_world None true) = (Http200 resp, w') /\
    exists features y,
      HousingFeatures_init canonical_input = inr features /\
      infers (constant_service (Fin 1.0055)) features y /\
      PredictionResponse.prediction resp = PyFloat.round2 y /\
      (fault (db (fresh_world None true)) = None ->
       exists row,
         rows (db w') = rows (db (fresh_world None true)) ++ [row] /\
         PredictionRecord.prediction row = y /\
         PredictionRecord.input_features row = HousingFeatures_dict features /\
         PredictionRecord.id row = next_id (db (fresh_world None true)) /\
         PredictionRecord.model_version row =
           PredictionResponse.model_version resp) /\
      (fault (db (fresh_world None true)) <> None ->
       rows (db w') = rows (db (fresh_world None true))).
Proof.
  eexists _, _. split; [reflexivity|].
  eapply (successful_predict_logs_raw_prediction _ _ (fresh_world None true)).
  reflexivity.
Defined.

(** C4 as it is stated fails when the model returns 1.0055: the call
    succeeds, the row of the log stores 1.0055 and the response carries
    1.01. *)
Lemma logged_prediction_differs_from_response :
  exists resp w' row,
    post_predict (constant_service (Fin 1.0055)) canonical_input
      (fresh_world None true) = (Http200 resp, w') /\
    rows (db w') = [row] /\
    PyFloat.eqb (PredictionRecord.prediction row)
                (PredictionResponse.prediction resp) = false.
Proof.
  eexists _, _, _. split; [reflexivity|]. split; [reflexivity|]. by vm_compute.
Qed.



(** C6.  When the validation of a [/predict] request fails, the request is
    answered 422 with the violations, which are not empty, and the world
    is the one before the request: no row is added to the prediction log,
    nothing is written to the operational log, the metrics and the clock
    are untouched, so no later step of the pipeline has run. *)
Theorem invalid_request_changes_nothing self body w errs :
  HousingFeatures_init body = inl errs ->
  post_predict self body w = (Http422 errs, w) /\
  errs <> [] /\
  rows (db (post_predict self body w).2) = rows (db w) /\
  logger (post_predict self body w).2 = logger w /\
  metrics (post_predict self body w).2 = metrics w.
Proof.
  intros He.
  assert (post_predict self body w = (Http422 errs, w)) as Hp
    by (by apply post_predict_422).
  rewrite Hp. repeat split; try done.
  pose proof (HousingFeatures_init_cases body) as Hc. rewrite He in Hc.
  apply Hc.
Qed.

Lemma invalid_request_changes_nothing_witness :
  post_predict (constant_service (Fin 1.0055)) two_faults_input
    (fresh_world None true) =
  (Http422 [("MedInc", Pydantic.NumberNotGe 0);
            ("AveOccup", Pydantic.NumberNotGe 0.5)], fresh_world None true).
Proof.
  exact (proj1 (invalid_request_changes_nothing (constant_service (Fin 1.0055))
                  two_faults_input (fresh_world None true) _ eq_refl)).
Defined.

(** ** [GET /health] and [GET /model/info] *)

Lemma canonical_input_accepted :
  HousingFeatures_init canonical_input = inr canonical_features.
Proof. reflexivity. Qed.

Lemma health_check_unfold self w :
  health_check self w =
  match predict self canonical_features w with
  | (inr _, w1) =>
      (inr {[ "status" := JStr "healthy";
              "model_loaded" := JBool (bool_decide (is_Some (model self)));
              "scaler_loaded" := JBool (bool_decide (is_Some (scaler self)));
              "timestamp" := JTime (clock w1) ]},
       set_clock (S (clock w1)) w1)
  | (inl e, w1) =>
      (inr {[ "status" := JStr "unhealthy";
              "error" := JText (str e);
              "timestamp" := JTime (clock w1) ]},
       set_clock (S (clock w1)) w1)
  end.
Proof.
  unfold health_check. rewrite canonical_input_accepted.
  unfold try_except, bind, lift, ret, datetime_now.
  by destruct (predict self canonical_features w) as [[e|y] w1].
Qed.




(** C9.  The performance metrics of [GET /model/info] are the constant
    rmse 0.52 and r2_score 0.82, whatever the state of the service: the
    model it holds, or none, the scaler and the metadata. *)
Theorem model_info_performance_metrics_constant (self : MLModelService) :
  ModelInfo.performance_metrics (get_model_info self) =
    {[ "rmse" := Fin 0.52; "r2_score" := Fin 0.82 ]} /\
  ModelInfo.performance_metrics (get_model_info self) !! "rmse" = Some (Fin 0.52) /\
  ModelInfo.performance_metrics (get_model_info self) !! "r2_score" =
    Some (Fin 0.82) /\
  dom (ModelInfo.performance_metrics (get_model_info self)) =
    {[ "rmse"; "r2_score" ]} /\
  forall self' : MLModelService,
    ModelInfo.performance_metrics (get_model_info self') =
    ModelInfo.performance_metrics (get_model_info self).
Proof.
  cbn. refine (conj eq_refl (conj _ (conj _ (conj _ _)))).
  - by simplify_map_eq.
  - by simplify_map_eq.
  - by rewrite dom_insert_L, dom_singleton_L.
  - done.
Qed.




(** ** Feature engineering *)

Section FeatureEngineering.

Lemma in_range_finite fi v :
  in_range fi v ->
  exists q, v = Fin q /\ (Pydantic.ge fi <= q)%Q /\ (q <= Pydantic.le fi)%Q.
Proof.
  intros [Hge Hle]. destruct v as [q| | |]; try done.
  exists q. split; [done|]. cbn in Hge, Hle.
  by split; apply Qle_bool_iff.
Qed.

Lemma accepted_fields_in_range body features :
  HousingFeatures_init body = inr features ->
  in_range MedInc_field (MedInc features) /\
  in_range HouseAge_field (HouseAge features) /\
  in_range AveRooms_field (AveRooms features) /\
  in_range AveBedrms_field (AveBedrms features) /\
  in_range Population_field (Population features) /\
  in_range AveOccup_field (AveOccup features) /\
  in_range Latitude_field (Latitude features) /\
  in_range Longitude_field (Longitude features).
Proof.
  intros Hf. pose proof (HousingFeatures_init_cases body) as Hc.
  rewrite Hf in Hc. unfold HousingFeatures_fields in Hc. cbn [map] in Hc.
  injection Hc as H1 H2 H3 H4 H5 H6 H7 H8.
  apply validate_inr_iff in H1, H2, H3, H4, H5, H6, H7, H8;
    cbn; tauto.
Qed.

Lemma Qzero_false q : (0 < q)%Q -> PyFloat.Qzero q = false.
Proof.
  intros Hq. unfold PyFloat.Qzero. destruct (Qeq_bool q 0) eqn:E; [|done].
  apply Qeq_bool_iff in E. rewrite E in Hq. by apply Qlt_irrefl in Hq.
Qed.

(** The frame of a row of finite numbers with positive AveRooms and
    AveOccup: the 8 raw columns and the 3 ratios, none of them changed by
    the handling of the infinite and undefined values. *)
Lemma engineer_features_finite (a b r d p o g h : Q) :
  (0 < r)%Q -> (0 < o)%Q ->
  engineer_features
    {| MedInc := Fin a; HouseAge := Fin b; AveRooms := Fin r;
       AveBedrms := Fin d; Population := Fin p; AveOccup := Fin o;
       Latitude := Fin g; Longitude := Fin h |} =
  [ ("MedInc", [Fin a]); ("HouseAge", [Fin b]); ("AveRooms", [Fin r]);
    ("AveBedrms", [Fin d]); ("Population", [Fin p]); ("AveOccup", [Fin o]);
    ("Latitude", [Fin g]); ("Longitude", [Fin h]);
    ("rooms_per_household", [Fin (r / o)]);
    ("bedrooms_per_room", [Fin (d / r)]);
    ("population_per_household", [Fin (p / o)]) ].
Proof.
  intros Hr Ho. unfold engineer_features. cbn.
  by rewrite (Qzero_false r Hr), (Qzero_false o Ho).
Qed.

End FeatureEngineering.

(** C8.  For every input that passed validation the feature engineering
    is total and stays in the finite numbers: the 8 fields are finite,
    AveRooms >= 1 and AveOccup >= 0.5 so that no denominator is zero, the
    three ratios are the exact quotients (and are bounded), the handling of
    infinite and undefined values changes nothing, every value of the
    frame is finite, preprocessing without a scaler returns this row and
    does not raise, and this row is what the model (or the scaler, when
    there is one) receives. *)
Theorem feature_engineering_total body features :
  HousingFeatures_init body = inr features ->
  exists a b r d p o g h : Q,
    features = {| MedInc := Fin a; HouseAge := Fin b; AveRooms := Fin r;
                  AveBedrms := Fin d; Population := Fin p; AveOccup := Fin o;
                  Latitude := Fin g; Longitude := Fin h |} /\
    (1 <= r)%Q /\ (0.5 <= o)%Q /\ ~ (r == 0)%Q /\ ~ (o == 0)%Q /\
    engineer_features features =
      [ ("MedInc", [Fin a]); ("HouseAge", [Fin b]); ("AveRooms", [Fin r]);
        ("AveBedrms", [Fin d]); ("Population", [Fin p]); ("AveOccup", [Fin o]);
        ("Latitude", [Fin g]); ("Longitude", [Fin h]);
        ("rooms_per_household", [PyFloat.div (AveRooms features) (AveOccup features)]);
        ("bedrooms_per_room", [PyFloat.div (AveBedrms features) (AveRooms features)]);
        ("population_per_household",
          [PyFloat.div (Population features) (AveOccup features)]) ] /\
    PyFloat.div (AveRooms features) (AveOccup features) = Fin (r / o) /\
    PyFloat.div (AveBedrms features) (AveRooms features) = Fin (d / r) /\
    PyFloat.div (Population features) (AveOccup features) = Fin (p / o) /\
    (0.05 <= r / o <= 40)%Q /\ (0 <= d / r <= 5)%Q /\ (0 <= p / o <= 100000)%Q /\
    Forall (fun c => Forall (fun x => PyFloat.isfinite x = true) c.2)
           (engineer_features features) /\
    (forall self, scaler self = None ->
       preprocess_input self features =
       inr [[Fin a; Fin b; Fin r; Fin d; Fin p; Fin o; Fin g; Fin h;
             Fin (r / o); Fin (d / r); Fin (p / o)]]) /\
    (forall self s, scaler self = Some s ->
       preprocess_input self features =
       scaler_transform s
         [[Fin a; Fin b; Fin r; Fin d; Fin p; Fin o; Fin g; Fin h;
           Fin (r / o); Fin (d / r); Fin (p / o)]]) /\
    (forall self m y, model self = Some m -> scaler self = None ->
       infers self features y <->
       exists ys,
         model_predict m
           [[Fin a; Fin b; Fin r; Fin d; Fin p; Fin o; Fin g; Fin h;
             Fin (r / o); Fin (d / r); Fin (p / o)]] = inr (y :: ys)).
Proof.
  intros Hf.
  destruct (accepted_fields_in_range body features Hf)
    as (Ha & Hb & Hr & Hd & Hp & Ho & Hg & Hh).
  apply in_range_finite in Ha as (a & Ea & Ha).
  apply in_range_finite in Hb as (b & Eb & Hb).
  apply in_range_finite in Hr as (r & Er & Hr1 & Hr2).
  apply in_range_finite in Hd as (d & Ed & Hd1 & Hd2).
  apply in_range_finite in Hp as (p & Ep & Hp1 & Hp2).
  apply in_range_finite in Ho as (o & Eo & Ho1 & Ho2).
  apply in_range_finite in Hg as (g & Eg & Hg).
  apply in_range_finite in Hh as (h & Eh & Hh).
  cbn in Hr1, Hr2, Hd1, Hd2, Hp1, Hp2, Ho1, Ho2.
  destruct features as [fa fb fr fd fp fo fg fh].
  cbn [MedInc HouseAge AveRooms AveBedrms Population AveOccup Latitude
       Longitude] in *.
  subst.
  assert (0 < r)%Q as Hrpos by lra. assert (0 < o)%Q as Hopos by lra.
  exists a, b, r, d, p, o, g, h.
  assert (forall self,
            preprocess_input self
              {| MedInc := Fin a; HouseAge := Fin b; AveRooms := Fin r;
                 AveBedrms := Fin d; Population := Fin p; AveOccup := Fin o;
                 Latitude := Fin g; Longitude := Fin h |} =
            match scaler self with
            | Some s =>
                scaler_transform s
                  [[Fin a; Fin b; Fin r; Fin d; Fin p; Fin o; Fin g; Fin h;
                    Fin (r / o); Fin (d / r); Fin (p / o)]]
            | None =>
                inr [[Fin a; Fin b; Fin r; Fin d; Fin p; Fin o; Fin g; Fin h;
                      Fin (r / o); Fin (d / r); Fin (p / o)]]
            end) as Hpre.
  { intros self. unfold preprocess_input.
    by rewrite (engineer_features_finite a b r d p o g h Hrpos Hopos). }
  rewrite (engineer_features_finite a b r d p o g h Hrpos Hopos).
  unfold PyFloat.div.
  rewrite (Qzero_false r Hrpos), (Qzero_false o Hopos).
  repeat match goal with |- _ /\ _ => split end; try done.
  - intros E. rewrite E in Hrpos. by apply Qlt_irrefl in Hrpos.
  - intros E. rewrite E in Hopos. by apply Qlt_irrefl in Hopos.
  - apply Qle_shift_div_l; [done|]. lra.
  - apply Qle_shift_div_r; [done|]. lra.
  - apply Qle_shift_div_l; [done|]. lra.
  - apply Qle_shift_div_r; [done|]. lra.
  - apply Qle_shift_div_l; [done|]. lra.
  - apply Qle_shift_div_r; [done|]. lra.
  - repeat constructor.
  - intros self Hs. by rewrite Hpre, Hs.
  - intros self s Hs. by rewrite Hpre, Hs.
  - intros self m y Hm Hs. unfold infers. split.
    + intros (m' & X & ys & Hm' & HX & Hy). rewrite Hpre, Hs in HX.
      injection HX as <-. rewrite Hm in Hm'. injection Hm' as <-. by exists ys.
    + intros [ys Hy]. eexists m, _, ys. by rewrite Hpre, Hs.
Qed.

Lemma feature_engineering_total_witness :
  exists a b r d p o g h : Q,
    canonical_features =
      {| MedInc := Fin a; HouseAge := Fin b; AveRooms := Fin r;
         AveBedrms := Fin d; Population := Fin p; AveOccup := Fin o;
         Latitude := Fin g; Longitude := Fin h |} /\
    (1 <= r)%Q /\ (0.5 <= o)%Q /\ ~ (r == 0)%Q /\ ~ (o == 0)%Q.
Proof.
  destruct (feature_engineering_total canonical_input canonical_features
              canonical_input_accepted)
    as (a & b & r & d & p & o & g & h & H1 & H2 & H3 & H4 & H5 & _).
  by exists a, b, r, d, p, o, g, h.
Defined.

(** Without the validation the step is not safe: for a record with no
    household member the two ratios over AveOccup are undefined, they stay
    [nan] after [fillna] (the mean of a column of one [nan] is [nan]), and
    they reach the model. *)
Lemma degenerate_division_reaches_the_model :
  preprocess_input empty_service
    {| MedInc := Fin 5; HouseAge := Fin 10; AveRooms := Fin 6;
       AveBedrms := Fin 1; Population := Fin 1000; AveOccup := Fin 0;
       Latitude := Fin 35; Longitude := Fin (-120) |} =
  inr [[Fin 5; Fin 10; Fin 6; Fin 1; Fin 1000; Fin 0; Fin 35; Fin (-120);
        NaN; Fin (1 / 6); NaN]].
Proof. reflexivity. Qed.

(** * Further properties of the service *)

(** ** What a request may change *)

Section Frame.

Variable self : MLModelService.

Lemma request_frame_refl w : request_frame w w.
Proof.
  unfold request_frame. split; [done|]. split.
  - exists []. rewrite app_nil_r. split; [done|]. split; [cbn; lia|by left].
  - split; [exists []; by rewrite app_nil_r|].
    destruct (metrics w); [|done]. split; by left.
Qed.

Lemma request_frame_set_clock w w1 c :
  request_frame w w1 -> request_frame w (set_clock c w1).
Proof. done. Qed.

Lemma request_frame_set_logger w w1 l :
  request_frame w w1 -> request_frame w (set_logger (logger w1 ++ l) w1).
Proof.
  intros (Hf & Hr & [added Hl] & Hm). split; [done|]. split; [done|].
  split; [|done]. exists (added ++ l). cbn. by rewrite Hl, app_assoc.
Qed.

(** [predict] keeps the frame; when it raises, the database and the
    counter are as before. *)
Lemma predict_frame features w :
  request_frame w (predict self features w).2 /\
  (forall e, (predict self features w).1 = inl e ->
     db (predict self features w).2 = db w /\
     prediction_counter <$> metrics (predict self features w).2 =
       prediction_counter <$> metrics w).
Proof.
  unfold request_frame, predict, try_except, bind, lift, ret, raise, timed,
    log_prediction, prediction_counter_inc, sqlite3_connect,
    cursor_execute_insert, conn_commit, datetime_now, logger_info,
    logger_error.
  destruct w as [[rws nid flt] lg mt ck]. cbn.
  destruct (model self) as [m|]; cbn.
  2:{ split; [|done]. split; [done|]. split.
      - exists []. rewrite app_nil_r. split; [done|]. split; [cbn; lia|by left].
      - split; [exists []; by rewrite app_nil_r|].
        destruct mt; [|done]. split; by left. }
  destruct (preprocess_input self features) as [e|X]; cbn.
  { split; [|done]. split; [done|]. split.
    - exists []. rewrite app_nil_r. split; [done|]. split; [cbn; lia|by left].
    - split; [by eexists|]. destruct mt; [|done]. split; by left. }
  destruct (model_predict m X) as [e|[|y ys]]; destruct mt as [mt|]; cbn;
    try (split; [|done]; split; [done|]; split;
         [ exists []; rewrite app_nil_r; split; [done|]; split; [cbn; lia|by left]
         | split; [by eexists|]; try done; split; [by left|by right] ]).
  all: destruct flt as [[]|]; cbn; (split; [|done]); (split; [done|]).
  all: split;
    [ first [ exists []; rewrite app_nil_r; split; [done|]; split; [cbn; lia|by left]
            | eexists [_]; split; [done|]; split; [cbn; lia|]; right; by eexists ]
    | split; [by eexists|]; try done; split; right; done ].
Qed.

Lemma predict_price_frame features w :
  request_frame w (predict_price self features w).2 /\
  (forall e, (predict_price self features w).1 = inl e ->
     db (predict_price self features w).2 = db w /\
     prediction_counter <$> metrics (predict_price self features w).2 =
       prediction_counter <$> metrics w /\
     exists e0 l,
       logger (predict_price self features w).2 =
       l ++ [(ERROR, Msg (Format "Prediction endpoint error: " e0))] /\
       e = HTTPException 500 (str e0)).
Proof.
  rewrite predict_price_unfold.
  destruct (predict_frame features w) as [Hfr Hfail].
  destruct (predict self features w) as [[e|y] w1]; cbn in *.
  - split; [by apply request_frame_set_logger|].
    intros e' [= <-]. destruct (Hfail e eq_refl) as [Hdb Hc].
    split; [done|]. split; [done|]. by eexists _, _.
  - split; [by apply request_frame_set_clock|]. done.
Qed.

Lemma post_predict_frame body w :
  request_frame w (post_predict self body w).2.
Proof.
  unfold post_predict. destruct (HousingFeatures_init body) as [errs|f].
  - apply request_frame_refl.
  - pose proof (predict_price_frame f w) as [H _].
    by destruct (predict_price self f w).
Qed.

Lemma get_health_frame w : request_frame w (get_health self w).2.
Proof.
  unfold get_health. rewrite health_check_unfold.
  destruct (predict_frame canonical_features w) as [Hfr _].
  destruct (predict self canonical_features w) as [[e|y] w1]; cbn in *;
    by apply request_frame_set_clock.
Qed.

Lemma app_frame req w : request_frame w (app self req w).2.
Proof.
  destruct req; cbn; try apply request_frame_refl.
  - pose proof (post_predict_frame body w). by destruct (post_predict self body w).
  - pose proof (get_health_frame w). by destruct (get_health self w).
Qed.

End Frame.

Section Invariants.

Variable self : MLModelService.

Lemma frame_keeps_log_ordered w w' :
  request_frame w w' -> log_ordered (db w) -> log_ordered (db w').
Proof.
  intros (_ & (new & Hrows & Hnext & Hnew) & _) [Hs Hlt].
  unfold log_ordered. rewrite Hrows, Hnext.
  destruct Hnew as [->|(r & -> & Hid)].
  - rewrite app_nil_r, Nat.add_0_r. done.
  - split.
    + rewrite map_app. cbn. rewrite Hid.
      clear Hrows Hnext Hid. induction (rows (db w)) as [|r0 l IH]; cbn.
      * repeat constructor.
      * apply StronglySorted_inv in Hs as [Hs Hr0].
        apply Forall_cons in Hlt as [Hr0lt Hlt].
        constructor; [by apply IH|].
        apply Forall_app. split; [done|]. by repeat constructor.
    + apply Forall_app. split.
      * eapply Forall_impl; [exact Hlt|]. cbn. intros; lia.
      * repeat constructor. cbn. lia.
Qed.

Lemma frame_keeps_metrics_consistent w w' :
  request_frame w w' -> metrics_consistent w -> metrics_consistent w'.
Proof.
  intros (_ & _ & _ & Hm). unfold metrics_consistent.
  destruct (metrics w) as [m|], (metrics w') as [m'|]; try done.
  destruct Hm as [[Hc|[Hc Hh]] [Hh'|Hh']]; lia.
Qed.

Lemma serve_cons req reqs w :
  serve self (req :: reqs) w =
  ((app self req w).1 :: (serve self reqs (app self req w).2).1,
   (serve self reqs (app self req w).2).2).
Proof.
  cbn [serve]. destruct (app self req w) as [r w1]. cbn.
  by destruct (serve self reqs w1).
Qed.

(** X1.  Whatever the request, the application only appends to the
    prediction log, at most one row, which takes the next identifier; it
    only appends to the operational log; it never changes the condition of
    the database nor whether the metrics are enabled; and the counter is
    incremented only together with one observation of the histogram. *)
Theorem request_keeps_frame (req : Request) (w : World) :
  request_frame w (app self req w).2.
Proof. apply app_frame. Qed.

(** X2.  Served from a log whose identifiers grow strictly below the next
    one, any sequence of requests leaves such a log: the identifiers of the
    rows stay distinct and in the order of insertion, and the rows that
    were there are still the first ones, unchanged. *)
Theorem serve_keeps_log_ordered (reqs : list Request) (w : World) :
  log_ordered (db w) ->
  log_ordered (db (serve self reqs w).2) /\
  NoDup (map PredictionRecord.id (rows (db (serve self reqs w).2))) /\
  rows (db w) `prefix_of` rows (db (serve self reqs w).2).
Proof.
  revert w. induction reqs as [|req reqs IH]; intros w Hw.
  - cbn. split; [done|]. split; [|done].
    destruct Hw as [Hs _]. revert Hs.
    induction (map PredictionRecord.id (rows (db w))) as [|i l IHl];
      intros Hs; [constructor|].
    apply StronglySorted_inv in Hs as [Hs Hi]. constructor; [|by apply IHl].
    intros Hin. rewrite Forall_forall in Hi. specialize (Hi i Hin). lia.
  - rewrite serve_cons. cbn [snd].
    pose proof (app_frame self req w) as Hfr.
    destruct (IH _ (frame_keeps_log_ordered _ _ Hfr Hw)) as (H1 & H2 & H3).
    split; [done|]. split; [done|].
    destruct Hfr as (_ & (new & Hrows & _) & _).
    etrans; [|exact H3]. rewrite Hrows. by apply prefix_app_r.
Qed.

(** X3.  When the counter does not exceed the number of observations of
    the histogram, it does not after any sequence of requests: a prediction
    is counted only after its inference was timed.  The two may differ: a
    [/predict] request whose features are accepted and for which the model
    raises is timed and not counted, the histogram has one more observation
    and the counter is as before. *)
Theorem serve_keeps_metrics_consistent (reqs : list Request) (w : World) :
  metrics_consistent w ->
  metrics_consistent (serve self reqs w).2 /\
  (forall body features m X e mt,
     HousingFeatures_init body = inr features ->
     model self = Some m ->
     preprocess_input self features = inr X ->
     model_predict m X = inl e ->
     metrics w = Some mt ->
     metrics (app self (POST_predict body) w).2 =
       Some {| prediction_counter := prediction_counter mt;
               prediction_histogram := S (prediction_histogram mt) |}).
Proof.
  intros Hw. split.
  - revert w Hw. induction reqs as [|req reqs IH]; intros w Hw; [done|].
    rewrite serve_cons. cbn [snd]. apply IH.
    eapply frame_keeps_metrics_consistent; [apply app_frame|done].
  - intros body features m X e mt Hf Hm HX He Hmt. cbn [app].
    rewrite (post_predict_of_predict _ _ _ _ Hf).
    unfold predict, try_except, bind, lift, ret, raise, timed, logger_error.
    destruct w as [d lg mt0 ck]. cbn in Hmt. subst mt0.
    rewrite Hm, HX. cbn. by rewrite He.
Qed.

End Invariants.

Lemma serve_keeps_log_ordered_witness :
  log_ordered (db (serve (constant_service (Fin 1.0055)) sample_requests
                     (fresh_world None true)).2) /\
  NoDup (map PredictionRecord.id
           (rows (db (serve (constant_service (Fin 1.0055)) sample_requests
                        (fresh_world None true)).2))) /\
  rows (db (fresh_world None true)) `prefix_of`
  rows (db (serve (constant_service (Fin 1.0055)) sample_requests
              (fresh_world None true)).2).
Proof.
  apply (serve_keeps_log_ordered (constant_service (Fin 1.0055))
           sample_requests (fresh_world None true)).
  split; constructor.
Defined.

(** With a model that raises, one request leaves one observation and no
    prediction counted. *)
Lemma serve_keeps_metrics_consistent_witness :
  metrics_consistent
    (serve raising_service sample_requests (fresh_world None true)).2 /\
  metrics (app raising_service (POST_predict canonical_input)
             (fresh_world None true)).2 =
    Some {| prediction_counter := 0; prediction_histogram := 1 |}.
Proof.
  destruct (serve_keeps_metrics_consistent raising_service sample_requests
              (fresh_world None true)) as [H1 H2]; [cbn; lia|].
  split; [exact H1|].
  exact (H2 canonical_input canonical_features raising_model _ _ _
            eq_refl eq_refl eq_refl eq_refl eq_refl).
Defined.

(** ** Requests that fail, and the count of those that succeed *)

Section Counting.

Variable self : MLModelService.


Lemma predict_counts features w :
  (fault (db w) = None ->
   length (rows (db (predict self features w).2)) =
   (length (rows (db w)) +
    if (predict self features w).1 is inr _ then 1 else 0)%nat) /\
  (forall m, metrics w = Some m ->
     exists m', metrics (predict self features w).2 = Some m' /\
       prediction_counter m' =
       (prediction_counter m +
        if (predict self features w).1 is inr _ then 1 else 0)%nat).
Proof.
  destruct (predict self features w) as [[e|y] w1] eqn:Hp; cbn.
  - pose proof (predict_frame self features w) as [_ Hfail].
    rewrite Hp in Hfail. destruct (Hfail e eq_refl) as [Hdb Hc]. cbn in *.
    split; [intros _; rewrite Hdb; lia|].
    intros m Hm. rewrite Hm in Hc. destruct (metrics w1) as [m'|]; [|done].
    exists m'. split; [done|]. cbn in Hc. injection Hc as ->. lia.
  - apply predict_returns in Hp as (_ & (Hm & _ & He) & _). split.
    + intros Hnone. rewrite Hnone in He. destruct He as (-> & _).
      rewrite length_app. cbn. lia.
    + intros m Hmw. rewrite Hm, Hmw. eexists. split; [done|]. cbn. lia.
Qed.

Lemma app_counts req w :
  (fault (db w) = None ->
   length (rows (db (app self req w).2)) =
   (length (rows (db w)) + counted (app self req w).1)%nat) /\
  (forall m, metrics w = Some m ->
     exists m', metrics (app self req w).2 = Some m' /\
       prediction_counter m' =
       (prediction_counter m + counted (app self req w).1)%nat).
Proof.
  assert ((fault (db w) = None ->
           length (rows (db w)) = (length (rows (db w)) + 0)%nat) /\
          (forall m, metrics w = Some m ->
             exists m', metrics w = Some m' /\
               prediction_counter m' = (prediction_counter m + 0)%nat)) as Hsame.
  { split; [lia|]. intros m Hm. exists m. split; [done|lia]. }
  destruct req; cbn; try exact Hsame.
  - destruct (HousingFeatures_init body) as [errs|f] eqn:Hf.
    { unfold post_predict. rewrite Hf. exact Hsame. }
    rewrite (post_predict_of_predict _ _ _ _ Hf).
    pose proof (predict_counts f w) as Hc.
    destruct (predict self f w) as [[e|y] w1]; cbn in *; [exact Hc|].
    destruct (PyFloat.isfinite y); exact Hc.
  - unfold get_health. rewrite health_check_unfold.
    pose proof (predict_counts canonical_features w) as Hc.
    destruct (predict self canonical_features w) as [[e|y] w1]; cbn in *.
    + unfold counted, made_prediction. by simplify_map_eq.
    + unfold counted, made_prediction. by simplify_map_eq.
Qed.

(** X5.  After any sequence of requests the counter [predictions_total],
    when the metrics are enabled, has grown by the number of responses
    that tell of a prediction made: the 200 of [/predict], the healthy
    [/health], and the plain 500 of the server, the answer to a prediction
    that was [nan] or an infinity and could not be rendered.  This is what
    [GET /metrics] then exposes; when the database has no fault the
    prediction log has grown by the same number of rows. *)
Theorem serve_counts_predictions (reqs : list Request) (w : World) :
  (fault (db w) = None ->
   length (rows (db (serve self reqs w).2)) =
   (length (rows (db w)) +
    length (filter (fun r => made_prediction r = true) (serve self reqs w).1))%nat) /\
  (forall m, metrics w = Some m ->
     exists m',
       get_metrics (serve self reqs w).2 = Exposition m' /\
       prediction_counter m' =
       (prediction_counter m +
        length (filter (fun r => made_prediction r = true)
                  (serve self reqs w).1))%nat) /\
  (metrics w = None ->
   get_metrics (serve self reqs w).2 = MetricsNotAvailable).
Proof.
  revert w. induction reqs as [|req reqs IH]; intros w.
  - cbn. split; [lia|]. split.
    + intros m Hm. exists m. unfold get_metrics. rewrite Hm. split; [done|lia].
    + intros Hm. unfold get_metrics. by rewrite Hm.
  - rewrite serve_cons. cbn [fst snd].
    pose proof (app_counts req w) as [Hrows Hcnt].
    pose proof (app_frame self req w) as (Hflt & _ & _ & Hmet).
    destruct (IH (app self req w).2) as (IHrows & IHcnt & IHnone).
    assert (forall r l,
              length (filter (fun r => made_prediction r = true) (r :: l)) =
              (counted r + length (filter (fun r => made_prediction r = true) l))%nat)
      as Hlen.
    { intros r l. rewrite filter_cons. unfold counted.
      destruct (made_prediction r); by case_decide. }
    rewrite Hlen. split; [|split].
    + intros Hnone. rewrite IHrows by (by rewrite Hflt).
      rewrite (Hrows Hnone). lia.
    + intros m Hm. destruct (Hcnt m Hm) as (m1 & Hm1 & Hc1).
      destruct (IHcnt m1 Hm1) as (m' & Hm' & Hc'). exists m'.
      split; [done|]. lia.
    + intros Hm. apply IHnone. rewrite Hm in Hmet.
      by destruct (metrics (app self req w).2).
Qed.

End Counting.

(** ** The service that the start yields *)

Section StartedService.

Variable env : Environment.

Local Ltac run_init :=
  unfold MLModelService_init, load_model, load_scaler, setup_database,
    try_except, bind, lift, ret, raise, logger_info, logger_error,
    datetime_now, sqlite3_connect.

(** The metadata that a start which is not fatal leaves in the service. *)
Lemma init_service w self w' :
  MLModelService_init env w = (inr self, w') ->
  feature_names self = FEATURE_NAMES /\
  model_info self !! "model_name" =
    Some (VStr "California Housing Price Predictor") /\
  model_info self !! "features" = Some (VList FEATURE_NAMES) /\
  (exists t, model_info self !! "last_updated" = Some (VTime t)) /\
  match mlflow_registry env with
  | inr m =>
      model self = Some m /\
      model_info self !! "version" = Some (VStr "Production")
  | inl _ =>
      match first_existing (model_store env) model_files with
      | Some (_, inr m) =>
          model self = Some m /\
          model_info self !! "version" = Some (VStr "1.0.0")
      | _ =>
          model self = None /\ model_info self !! "version" = None
      end
  end.
Proof.
  run_init. destruct w as [[rws nid flt] lg mt ck].
  destruct (mlflow_registry env) as [e|m].
  - rewrite load_local_model_first_existing.
    destruct (first_existing (model_store env) model_files)
      as [[path [e'|m]]|]; cbn; [done| |];
      destruct (scaler_store env) as [[e'|s]|]; cbn; try done;
      destruct flt as [[]|]; cbn; intros [= <- <-]; cbn;
      repeat split; try done; try (by simplify_map_eq); by eexists.
  - cbn. destruct (scaler_store env) as [[e'|s]|]; cbn; try done;
      destruct flt as [[]|]; cbn; intros [= <- <-]; cbn;
      repeat split; try done; try (by simplify_map_eq); by eexists.
Qed.

(** X6.  The start does not depend on the database: whatever is wrong with
    [logs/predictions.db], the start is fatal or not as without the fault,
    it yields the same service, and it leaves the database as it found
    it. *)
Theorem start_ignores_database (w : World) (f : option DbFault) :
  (MLModelService_init env (set_fault f w)).1 = (MLModelService_init env w).1 /\
  db (MLModelService_init env w).2 = db w.
Proof.
  run_init. unfold set_fault. destruct w as [[rws nid flt] lg mt ck].
  destruct (mlflow_registry env) as [e|m].
  - rewrite !load_local_model_first_existing.
    destruct (first_existing (model_store env) model_files)
      as [[path [e'|m]]|]; cbn; [done| |];
      destruct (scaler_store env) as [[e'|s]|]; cbn; try done;
      destruct flt as [[]|], f as [[]|]; cbn; done.
  - cbn. destruct (scaler_store env) as [[e'|s]|]; cbn; try done;
      destruct flt as [[]|], f as [[]|]; cbn; done.
Qed.

(** X7.  After a start that is not fatal, [GET /model/info] gives the name
    "California Housing Price Predictor", the 11 feature names and a time of
    last update; the version is "Production" exactly when the registry
    resolved the model, "Unknown" exactly when the service holds no model,
    and "1.0.0" otherwise, for a model loaded from a local file. *)
Theorem model_info_after_start (w : World) (self : MLModelService) (w' : World) :
  MLModelService_init env w = (inr self, w') ->
  ModelInfo.model_name (get_model_info self) =
    VStr "California Housing Price Predictor" /\
  ModelInfo.features (get_model_info self) = FEATURE_NAMES /\
  (exists t, ModelInfo.last_updated (get_model_info self) = VTime t) /\
  (ModelInfo.model_version (get_model_info self) = VStr "Production" <->
   exists m, mlflow_registry env = inr m) /\
  (ModelInfo.model_version (get_model_info self) = VStr "Unknown" <->
   model self = None) /\
  (ModelInfo.model_version (get_model_info self) = VStr "Production" \/
   ModelInfo.model_version (get_model_info self) = VStr "1.0.0" \/
   ModelInfo.model_version (get_model_info self) = VStr "Unknown").
Proof.
  intros (Hfn & Hname & _ & [t Ht] & Hv)%init_service.
  unfold get_model_info, dict_get. cbn. rewrite Hname, Ht, Hfn.
  split; [done|]. split; [done|]. split; [by eexists|].
  destruct (mlflow_registry env) as [e|m].
  - destruct (first_existing (model_store env) model_files)
      as [[path [e'|m]]|]; destruct Hv as [Hm ->]; rewrite Hm;
      (split; [split; [done|by intros [? ?]]|]); (split; [done|]); tauto.
  - destruct Hv as [Hm ->]. rewrite Hm.
    split; [split; [by eexists|done]|]. split; [done|tauto].
Qed.

(** X8.  For a service that the start yielded, the version in every
    successful response of [/predict] is the version that [/model/info]
    reports, "Production" or "1.0.0": the defaults "unknown" and "Unknown"
    are used only when no model is loaded, and then no prediction
    succeeds. *)
Theorem predict_version_is_model_info_version
    (w : World) (self : MLModelService) (w' : World)
    (body : gmap string pyfloat) (w0 : World)
    (resp : PredictionResponse.t) (w1 : World) :
  MLModelService_init env w = (inr self, w') ->
  post_predict self body w0 = (Http200 resp, w1) ->
  PredictionResponse.model_version resp =
    ModelInfo.model_version (get_model_info self) /\
  (PredictionResponse.model_version resp = VStr "Production" \/
   PredictionResponse.model_version resp = VStr "1.0.0").
Proof.
  intros (_ & _ & _ & _ & Hv)%init_service
         (f & y & w2 & _ & _ & (m & _ & _ & Hm & _) & _ & _ & _ & -> & _)
           %post_predict_200_inv.
  unfold get_model_info, dict_get. cbn.
  destruct (mlflow_registry env) as [e|m0].
  - destruct (first_existing (model_store env) model_files)
      as [[path [e'|m0]]|]; destruct Hv as [Hm' Hver]; try congruence;
      rewrite Hver; tauto.
  - destruct Hv as [_ ->]. tauto.
Qed.

End StartedService.

Lemma model_info_after_start_witness :
  exists self w',
    MLModelService_init local_environment (fresh_world None true) = (inr self, w') /\
    ModelInfo.model_name (get_model_info self) =
      VStr "California Housing Price Predictor" /\
    ModelInfo.features (get_model_info self) = FEATURE_NAMES /\
    (exists t, ModelInfo.last_updated (get_model_info self) = VTime t) /\
    (ModelInfo.model_version (get_model_info self) = VStr "Production" <->
     exists m, mlflow_registry local_environment = inr m) /\
    (ModelInfo.model_version (get_model_info self) = VStr "Unknown" <->
     model self = None) /\
    (ModelInfo.model_version (get_model_info self) = VStr "Production" \/
     ModelInfo.model_version (get_model_info self) = VStr "1.0.0" \/
     ModelInfo.model_version (get_model_info self) = VStr "Unknown").
Proof.
  eexists _, _. split; [reflexivity|].
  eapply (model_info_after_start local_environment (fresh_world None true)).
  reflexivity.
Defined.

Lemma predict_version_is_model_info_version_witness :
  exists self w' resp w1,
    MLModelService_init local_environment (fresh_world None true) = (inr self, w') /\
    post_predict self canonical_input (fresh_world None true) = (Http200 resp, w1) /\
    PredictionResponse.model_version resp =
      ModelInfo.model_version (get_model_info self) /\
    (PredictionResponse.model_version resp = VStr "Production" \/
     PredictionResponse.model_version resp = VStr "1.0.0").
Proof.
  eexists _, _, _, _. split; [reflexivity|]. split; [reflexivity|].
  eapply (predict_version_is_model_info_version local_environment
            (fresh_world None true) _ _ canonical_input (fresh_world None true));
    reflexivity.
Defined.

(** ** Feature engineering on any input *)

Lemma fillna_single x :
  (if PyFloat.isnan x then DataFrame.mean [x] else x) = x.
Proof. by destruct x. Qed.

(** On a frame of one row [fillna(df.mean())] changes nothing: the mean of
    a column whose only value is [nan] is [nan]. *)
Lemma fillna_mean_single_row (df : DataFrame.t) :
  Forall (fun kc => exists x, kc.2 = [x]) df -> DataFrame.fillna_mean df = df.
Proof.
  induction 1 as [|[k c] df [x Hx] _ IH]; [done|].
  cbn in Hx. subst c. unfold DataFrame.fillna_mean in *. cbn [map fst snd].
  rewrite IH. by rewrite fillna_single.
Qed.

(** X9.  Whatever the features, also outside the validated ranges, the
    frame of [preprocess_input] has one row and the 11 columns of
    [feature_names], in that order: the row handed to the scaler or to the
    model has the layout that the service declares. *)
Theorem engineered_columns_are_feature_names (features : HousingFeatures) :
  map fst (engineer_features features) = FEATURE_NAMES /\
  Forall (fun kc => length kc.2 = 1%nat) (engineer_features features) /\
  exists row,
    DataFrame.values (engineer_features features) = [row] /\
    length row = length FEATURE_NAMES.
Proof.
  destruct features as [a b r d p o g h].
  unfold engineer_features.
  rewrite fillna_mean_single_row by (cbn; repeat constructor; by eexists).
  cbn. split; [done|]. split; [by repeat constructor|]. by eexists.
Qed.

(** X10.  Whatever the features, the row of [preprocess_input] is made of
    the 8 submitted values and the 3 quotients with every infinity
    replaced by [nan], and nothing else is changed: no infinity ever
    reaches the scaler or the model, but an undefined value does, since
    for a single request the mean that should fill it is undefined
    itself. *)
Theorem engineered_row_is_sanitized (features : HousingFeatures) :
  DataFrame.values (engineer_features features) =
    [map sanitize (raw_and_ratios features)] /\
  Forall (fun x => PyFloat.isinf x = false) (map sanitize (raw_and_ratios features)) /\
  (forall self, scaler self = None ->
     preprocess_input self features = inr [map sanitize (raw_and_ratios features)]) /\
  (forall x, In x (raw_and_ratios features) -> PyFloat.isnan x = true ->
     In NaN (map sanitize (raw_and_ratios features))).
Proof.
  assert (DataFrame.values (engineer_features features) =
          [map sanitize (raw_and_ratios features)]) as Hrow.
  { destruct features as [a b r d p o g h]. unfold engineer_features.
    rewrite fillna_mean_single_row by (cbn; repeat constructor; by eexists).
    reflexivity. }
  split; [done|]. split; [|split].
  - apply Forall_forall. intros x Hx. apply list_elem_of_In in Hx.
    apply in_map_iff in Hx as (y & <- & _). unfold sanitize. by destruct y.
  - intros self Hs. unfold preprocess_input. by rewrite Hs, Hrow.
  - intros x Hin Hnan. destruct x; try done.
    apply (in_map sanitize) in Hin. exact Hin.
Qed.

(** ** The form and the API *)

Section FormAndApi.

Lemma in_range_Fin fi q :
  in_range fi (Fin q) <-> (Pydantic.ge fi <= q)%Q /\ (q <= Pydantic.le fi)%Q.
Proof. unfold in_range. cbn. by rewrite !Qle_bool_iff. Qed.

Lemma validate_not_le fi body q :
  body !! Pydantic.name fi = Some (Fin q) ->
  (Pydantic.ge fi <= q)%Q -> ~ (q <= Pydantic.le fi)%Q ->
  Pydantic.validate fi body =
  inl (Pydantic.name fi, Pydantic.NumberNotLe (Pydantic.le fi)).
Proof.
  intros Hv Hge Hle. unfold Pydantic.validate. rewrite Hv.
  unfold Pydantic.validators. cbn [Pydantic.apply_validators].
  unfold Pydantic.number_size_validator. cbn.
  apply Qle_bool_iff in Hge. rewrite Hge. cbn.
  destruct (Qle_bool q (Pydantic.le fi)) eqn:E; [|done].
  by apply Qle_bool_iff in E.
Qed.

(** X11.  The form and the API agree on every range but one: the form lets
    the population go up to 500000 and the API accepts it up to 50000.  A
    form whose population is at most 50000 is always accepted; with a
    larger population, which the form allows, the request is answered 422
    with the single violation of the upper bound of Population, the page
    shows the error of the API, and nothing is predicted or logged. *)
Theorem form_population_beyond_api (self : MLModelService) (f : Form) (w : World) :
  form_state f ->
  (acceptable (form_features f) <-> (population f <= 50000)%Q) /\
  (~ (population f <= 50000)%Q ->
   predict_button self f w =
   (ApiError (Http422 [("Population", Pydantic.NumberNotLe 50000)]), w)).
Proof.
  intros (Ha & Hb & Hr & Hd & Hp & Ho & Hg & Hh).
  assert (forall fi q,
            In fi HousingFeatures_fields ->
            form_features f !! Pydantic.name fi = Some (Fin q) ->
            (Pydantic.ge fi <= q)%Q /\ (q <= Pydantic.le fi)%Q ->
            Pydantic.validate fi (form_features f) = inr (Fin q)) as Hok.
  { intros fi q Hin Hv Hq. apply validate_inr_iff; [done|].
    split; [done|]. by apply in_range_Fin. }
  assert (Pydantic.validate MedInc_field (form_features f) = inr (Fin (medinc f)))
    as V1 by (apply Hok; [cbn; tauto|done|exact Ha]).
  assert (Pydantic.validate HouseAge_field (form_features f) = inr (Fin (houseage f)))
    as V2 by (apply Hok; [cbn; tauto|done|exact Hb]).
  assert (Pydantic.validate AveRooms_field (form_features f) = inr (Fin (averooms f)))
    as V3 by (apply Hok; [cbn; tauto|done|exact Hr]).
  assert (Pydantic.validate AveBedrms_field (form_features f) = inr (Fin (avebedrms f)))
    as V4 by (apply Hok; [cbn; tauto|done|exact Hd]).
  assert (Pydantic.validate AveOccup_field (form_features f) = inr (Fin (aveoccup f)))
    as V6 by (apply Hok; [cbn; tauto|done|exact Ho]).
  assert (Pydantic.validate Latitude_field (form_features f) = inr (Fin (latitude f)))
    as V7 by (apply Hok; [cbn; tauto|done|exact Hg]).
  assert (Pydantic.validate Longitude_field (form_features f) = inr (Fin (longitude f)))
    as V8 by (apply Hok; [cbn; tauto|done|exact Hh]).
  assert (~ (population f <= 50000)%Q ->
          HousingFeatures_init (form_features f) =
          inl [("Population", Pydantic.NumberNotLe 50000)]) as Hrej.
  { intros Hbig. unfold HousingFeatures_init, HousingFeatures_fields. cbn [map].
    rewrite V1, V2, V3, V4, V6, V7, V8.
    rewrite (validate_not_le Population_field _ (population f));
      [done|done|apply Hp|exact Hbig]. }
  split.
  - split.
    + intros [Hall _] . unfold HousingFeatures_fields in Hall.
      rewrite !Forall_cons in Hall.
      destruct Hall as (_ & _ & _ & _ & (v & Hv & Hin) & _).
      cbn in Hv. unfold form_features in Hv. simplify_map_eq.
      by apply in_range_Fin in Hin as [_ Hle].
    + intros Hle. apply accepted_iff_acceptable.
      unfold HousingFeatures_init, HousingFeatures_fields. cbn [map].
      rewrite V1, V2, V3, V4, V6, V7, V8.
      rewrite (Hok Population_field (population f));
        [by eexists|cbn; tauto|done|].
      split; [apply Hp|exact Hle].
  - intros Hbig. unfold predict_button, post_predict. by rewrite (Hrej Hbig).
Qed.

Lemma form_population_beyond_api_witness :
  (acceptable (form_features (form_with_population 60000)) <->
   (population (form_with_population 60000) <= 50000)%Q) /\
  (~ (population (form_with_population 60000) <= 50000)%Q ->
   predict_button (constant_service (Fin 1.0055)) (form_with_population 60000)
     (fresh_world None true) =
   (ApiError (Http422 [("Population", Pydantic.NumberNotLe 50000)]),
    fresh_world None true)).
Proof.
  apply (form_population_beyond_api (constant_service (Fin 1.0055))
           (form_with_population 60000) (fresh_world None true)).
  unfold form_state, holds. cbn. repeat split; by vm_compute.
Defined.

End FormAndApi.

(** ** The preprocessing of the training data *)

Section TrainingData.

Implicit Types (X : DataFrame.t) (c : list pyfloat) (k : string).

Lemma column_inl X k e :
  column X k = inl e <->
  ~ In k (map fst X) /\ e = Exception ("KeyError: " +:+ k).
Proof.
  induction X as [|[k' c] X IH]; cbn [column map fst In].
  - split; [intros [= <-]; split; [intros []|done] | by intros [_ ->]].
  - destruct (String.eqb_spec k' k) as [->|Hne].
    + split; [done | intros [H _]; tauto].
    + rewrite IH. split; intros [H ->]; (split; [tauto|done]).
Qed.

Lemma column_inr X k :
  In k (map fst X) -> exists c, column X k = inr c.
Proof.
  intros Hin. destruct (column X k) as [e|c] eqn:E; [|by eexists].
  apply column_inl in E as [H _]. tauto.
Qed.

Lemma setitem_names_fresh X k c :
  ~ In k (map fst X) ->
  map fst (DataFrame.setitem X k c) = map fst X ++ [k].
Proof.
  induction X as [|[k' c'] X IH]; cbn; [done|]. intros Hn.
  destruct (String.eqb_spec k' k) as [->|Hne]; [tauto|].
  cbn. rewrite IH; [done|tauto].
Qed.

Lemma replace_inf_names X : map fst (DataFrame.replace_inf X) = map fst X.
Proof. unfold DataFrame.replace_inf. rewrite map_map. by apply map_ext. Qed.

Lemma fillna_mean_names X : map fst (DataFrame.fillna_mean X) = map fst X.
Proof. unfold DataFrame.fillna_mean. rewrite map_map. by apply map_ext. Qed.

(** X12.  [preprocess_data] needs the columns AveRooms, AveOccup, AveBedrms
    and Population: when one is absent it raises, the exception is the
    [KeyError] of an absent one, and nothing is returned; when they are
    all there it returns the target unchanged and, if the frame had no
    column of the three new names, a frame with the columns of the input
    in their order followed by rooms_per_household, bedrooms_per_room and
    population_per_household. *)
Theorem preprocess_data_outcome X (y : list pyfloat) :
  ((exists k, In k ["AveRooms"; "AveOccup"; "AveBedrms"; "Population"] /\
              ~ In k (map fst X)) ->
   exists e, preprocess_data X y = inl e) /\
  (forall e, preprocess_data X y = inl e ->
     exists k,
       In k ["AveRooms"; "AveOccup"; "AveBedrms"; "Population"] /\
       ~ In k (map fst X) /\
       e = Exception ("KeyError: " +:+ k)) /\
  ((forall k, In k ["AveRooms"; "AveOccup"; "AveBedrms"; "Population"] ->
      In k (map fst X)) ->
   exists X', preprocess_data X y = inr (X', y) /\
     ((forall k, In k ["rooms_per_household"; "bedrooms_per_room";
                       "population_per_household"] -> ~ In k (map fst X)) ->
      map fst X' =
      map fst X ++ ["rooms_per_household"; "bedrooms_per_room";
                    "population_per_household"])).
Proof.
  unfold preprocess_data, truediv_columns. split; [|split].
  - intros (k & Hk & Hnot).
    assert (exists e, column X k = inl e) as [e0 He0]
      by (eexists; by apply column_inl).
    destruct (column X "AveRooms") as [e1|c1] eqn:E1; [by eexists|].
    destruct (column X "AveOccup") as [e2|c2] eqn:E2; [by eexists|].
    destruct (column X "AveBedrms") as [e3|c3] eqn:E3; [by eexists|].
    destruct (column X "Population") as [e4|c4] eqn:E4; [by eexists|].
    exfalso. cbn in Hk. destruct Hk as [<-|[<-|[<-|[<-|[]]]]]; congruence.
  - intros e.
    destruct (column X "AveRooms") as [e1|c1] eqn:E1.
    { intros [= <-]. apply column_inl in E1 as [? ->].
      exists "AveRooms". cbn. tauto. }
    destruct (column X "AveOccup") as [e2|c2] eqn:E2.
    { intros [= <-]. apply column_inl in E2 as [? ->].
      exists "AveOccup". cbn. tauto. }
    destruct (column X "AveBedrms") as [e3|c3] eqn:E3.
    { intros [= <-]. apply column_inl in E3 as [? ->].
      exists "AveBedrms". cbn. tauto. }
    destruct (column X "Population") as [e4|c4] eqn:E4; [|done].
    intros [= <-]. apply column_inl in E4 as [? ->].
    exists "Population". cbn. tauto.
  - intros Hall.
    destruct (column_inr X "AveRooms") as [c1 ->]; [apply Hall; cbn; tauto|].
    destruct (column_inr X "AveOccup") as [c2 ->]; [apply Hall; cbn; tauto|].
    destruct (column_inr X "AveBedrms") as [c3 ->]; [apply Hall; cbn; tauto|].
    destruct (column_inr X "Population") as [c4 ->]; [apply Hall; cbn; tauto|].
    eexists. split; [reflexivity|]. intros Hfresh.
    rewrite fillna_mean_names, replace_inf_names.
    rewrite !setitem_names_fresh.
    + by rewrite <- !app_assoc.
    + apply Hfresh. cbn. tauto.
    + rewrite setitem_names_fresh by (apply Hfresh; cbn; tauto).
      rewrite in_app_iff. intros [H|[H|[]]]; [|done].
      revert H. apply Hfresh. cbn. tauto.
    + rewrite !setitem_names_fresh.
      * rewrite !in_app_iff. intros [[H|[H|[]]]|[H|[]]]; try done.
        revert H. apply Hfresh. cbn. tauto.
      * apply Hfresh. cbn. tauto.
      * rewrite setitem_names_fresh by (apply Hfresh; cbn; tauto).
        rewrite in_app_iff. intros [H|[H|[]]]; [|done].
        revert H. apply Hfresh. cbn. tauto.
Qed.

Lemma setitem_In_new X k c : In (k, c) (DataFrame.setitem X k c).
Proof.
  induction X as [|[k' c'] X IH]; cbn; [by left|].
  destruct (String.eqb k' k); [by left | by right].
Qed.

Lemma setitem_In_other X k c k' c' :
  In (k, c) X -> k <> k' -> In (k, c) (DataFrame.setitem X k' c').
Proof.
  intros Hin Hne. induction X as [|[k0 c0] X IH]; [done|]. cbn.
  destruct (String.eqb_spec k0 k') as [->|Hne0].
  - destruct Hin as [[= -> ->]|Hin]; [done | by right].
  - destruct Hin as [Hin|Hin]; [by left | right; by apply IH].
Qed.

(** The two cleaning steps, a column at a time. *)
Lemma clean_frame X :
  DataFrame.fillna_mean (DataFrame.replace_inf X) =
  map (fun kc => (kc.1, fill_gaps kc.2)) X.
Proof.
  unfold DataFrame.fillna_mean, DataFrame.replace_inf, fill_gaps.
  rewrite map_map. apply map_ext. intros [k c]. cbn. f_equal.
  rewrite map_map. apply map_ext. intros x. by destruct x.
Qed.

(** X13.  [preprocess_data] returns the target unchanged and cleans every
    column of the frame, those of the input and the three that it adds, in
    one way: a finite value is kept as it is, and every other value, [nan]
    or an infinity, is replaced by the mean of the column taken over its
    finite values ([nan] when the column has none).  The three new columns
    are the quotients of the columns of the input, cleaned in that way. *)
Theorem preprocess_data_fills_gaps X (y : list pyfloat)
    X' (y' : list pyfloat) :
  preprocess_data X y = inr (X', y') ->
  y' = y /\
  (forall k c,
     In (k, c) X ->
     ~ In k ["rooms_per_household"; "bedrooms_per_room";
             "population_per_household"] ->
     In (k, fill_gaps c) X') /\
  exists rooms occup bedrms population,
    column X "AveRooms" = inr rooms /\
    column X "AveOccup" = inr occup /\
    column X "AveBedrms" = inr bedrms /\
    column X "Population" = inr population /\
    In ("rooms_per_household", fill_gaps (DataFrame.truediv rooms occup)) X' /\
    In ("bedrooms_per_room", fill_gaps (DataFrame.truediv bedrms rooms)) X' /\
    In ("population_per_household",
        fill_gaps (DataFrame.truediv population occup)) X'.
Proof.
  unfold preprocess_data, truediv_columns.
  destruct (column X "AveRooms") as [e|rooms]; [done|].
  destruct (column X "AveOccup") as [e|occup]; [done|].
  destruct (column X "AveBedrms") as [e|bedrms]; [done|].
  destruct (column X "Population") as [e|population]; [done|].
  intros [= <- <-]. split; [done|]. rewrite clean_frame.
  assert (forall k c X0, In (k, c) X0 ->
            In (k, fill_gaps c) (map (fun kc => (kc.1, fill_gaps kc.2)) X0))
    as Hmap.
  { intros k c X0 Hin.
    apply (in_map (fun kc : string * list pyfloat => (kc.1, fill_gaps kc.2))) in Hin.
    exact Hin. }
  split.
  - intros k c Hin Hk. apply Hmap.
    repeat (apply setitem_In_other; [|intros ->; apply Hk; cbn; tauto]).
    exact Hin.
  - exists rooms, occup, bedrms, population.
    refine (conj eq_refl (conj eq_refl (conj eq_refl (conj eq_refl _)))).
    refine (conj _ (conj _ _)); apply Hmap.
    + do 2 (apply setitem_In_other; [|done]). apply setitem_In_new.
    + apply setitem_In_other; [|done]. apply setitem_In_new.
    + apply setitem_In_new.
Qed.

Lemma truediv_map (g1 g2 : HousingFeatures -> pyfloat) fs :
  DataFrame.truediv (map g1 fs) (map g2 fs) =
  map (fun x => PyFloat.div (g1 x) (g2 x)) fs.
Proof. induction fs as [|f fs IH]; [done|]. cbn. by rewrite IH. Qed.

Lemma regular_getters fs :
  Forall regular fs ->
  Forall (fun kg => Forall (fun x => PyFloat.isfinite (kg.2 x) = true) fs)
         feature_getters.
Proof.
  intros Hfs.
  assert (forall g : HousingFeatures -> pyfloat,
            (forall x, In (g x) (raw_and_ratios x)) ->
            Forall (fun x => PyFloat.isfinite (g x) = true) fs) as Hg.
  { intros g Hin. eapply Forall_impl; [exact Hfs|]. intros x Hx.
    unfold regular in Hx. rewrite Forall_forall in Hx. apply Hx.
    apply list_elem_of_In, Hin. }
  unfold feature_getters.
  repeat (apply Forall_cons_2; [apply Hg; intros x; cbn; tauto|]).
  apply Forall_nil_2.
Qed.

Lemma replace_inf_frame_of gs fs :
  Forall (fun kg => Forall (fun x => PyFloat.isfinite (kg.2 x) = true) fs) gs ->
  DataFrame.replace_inf (frame_of gs fs) = frame_of gs fs.
Proof.
  unfold DataFrame.replace_inf, frame_of.
  induction 1 as [|[k g] gs Hg _ IH]; [done|]. cbn [map fst snd].
  rewrite IH. f_equal. f_equal.
  clear IH. induction Hg as [|f fs Hf _ IHf]; [done|]. cbn in *.
  rewrite IHf. by destruct (g f).
Qed.

Lemma fillna_mean_frame_of gs fs :
  Forall (fun kg => Forall (fun x => PyFloat.isfinite (kg.2 x) = true) fs) gs ->
  DataFrame.fillna_mean (frame_of gs fs) = frame_of gs fs.
Proof.
  unfold DataFrame.fillna_mean, frame_of.
  induction 1 as [|[k g] gs Hg _ IH]; [done|]. cbn [map fst snd].
  rewrite IH. f_equal. f_equal.
  generalize (DataFrame.mean (map g fs)). intros m.
  clear IH. induction Hg as [|f fs Hf _ IHf]; [done|]. cbn in *.
  rewrite IHf. by destruct (g f).
Qed.

Lemma values_frame_of k g gs fs :
  DataFrame.values (frame_of ((k, g) :: gs) fs) =
  map (fun x => map (fun kg => kg.2 x) ((k, g) :: gs)) fs.
Proof.
  unfold DataFrame.values, frame_of. cbn [map DataFrame.nrows fst snd].
  rewrite length_map.
  induction fs as [|f fs IH]; [done|].
  cbn [length seq map]. f_equal.
  - f_equal. rewrite !map_map. by apply map_ext.
  - rewrite <- seq_shift, map_map. rewrite <- IH. apply map_ext. intros i.
    f_equal. rewrite !map_map. by apply map_ext.
Qed.

(** X14.  On data whose values and quotients are all finite, the
    preprocessing of the training data and the preprocessing of a request
    agree: [preprocess_data] applied to the 8 columns of the records
    returns the 11 columns of [feature_names] in the same order, and each
    of its rows is the row that [preprocess_input] builds for that record
    alone. *)
Theorem training_rows_are_serving_rows (fs : list HousingFeatures)
    (y : list pyfloat) :
  Forall regular fs ->
  exists X',
    preprocess_data (housing_frame fs) y = inr (X', y) /\
    map fst X' = FEATURE_NAMES /\
    DataFrame.values X' = map raw_and_ratios fs /\
    DataFrame.values X' =
      flat_map (fun x => DataFrame.values (engineer_features x)) fs.
Proof.
  intros Hfs. pose proof (regular_getters fs Hfs) as Hg.
  assert (preprocess_data (housing_frame fs) y =
          inr (frame_of feature_getters fs, y)) as Hpre.
  { unfold preprocess_data, housing_frame, truediv_columns. cbn [column String.eqb
      Ascii.eqb Bool.eqb]. cbn.
    rewrite !truediv_map.
    change (inr (DataFrame.fillna_mean
                   (DataFrame.replace_inf (frame_of feature_getters fs)), y) =
            @inr exn _ (frame_of feature_getters fs, y)).
    by rewrite replace_inf_frame_of, fillna_mean_frame_of. }
  exists (frame_of feature_getters fs). split; [done|]. split; [done|].
  assert (DataFrame.values (frame_of feature_getters fs) =
          map raw_and_ratios fs) as Hv.
  { unfold feature_getters. rewrite values_frame_of. by apply map_ext. }
  split; [done|]. rewrite Hv.
  clear Hg Hpre Hv. induction Hfs as [|f fs Hf _ IH]; [done|].
  cbn [map flat_map]. rewrite <- IH.
  destruct f as [a b r d p o g h]. unfold engineer_features.
  rewrite fillna_mean_single_row by (cbn; repeat constructor; by eexists).
  unfold regular, raw_and_ratios in Hf. cbn in Hf.
  rewrite !Forall_cons in Hf.
  destruct Hf as (?&?&?&?&?&?&?&?&?&?&?&_).
  cbn. unfold raw_and_ratios. cbn.
  repeat match goal with
         | H : PyFloat.isfinite ?v = true |- context [PyFloat.isinf ?v] =>
             replace (PyFloat.isinf v) with false by (by destruct v)
         end.
  done.
Qed.

(** With a record that has no household member the two agree no more: the
    training frame gets the mean of the column, the request gets [nan]. *)
Lemma training_fills_what_serving_passes :
  (exists X', preprocess_data (housing_frame regular_and_degenerate) [] =
              inr (X', []) /\
     DataFrame.getitem X' "population_per_household" =
       [Fin (1000 / 3); Fin ((1000 / 3 + 0) / 1)]) /\
  flat_map (fun x => DataFrame.getitem (engineer_features x)
                       "population_per_household") regular_and_degenerate =
    [Fin (1000 / 3); NaN].
Proof. split; [eexists; split|]; reflexivity. Qed.

End TrainingData.

(** ** The monitor of the prediction log *)

Section Monitor.

Lemma Qlt_bool_iff a b : PyFloat.Qlt_bool a b = true <-> (a < b)%Q.
Proof.
  unfold PyFloat.Qlt_bool. split.
  - intros H. apply Qnot_le_lt. intros Hle. apply Qle_bool_iff in Hle.
    by rewrite Hle in H.
  - intros H. destruct (Qle_bool b a) eqn:E; [|done].
    apply Qle_bool_iff in E. by apply Qle_not_lt in E.
Qed.

Lemma div_by_negative_nonpos a o : (0 <= a)%Q -> (o < 0)%Q -> (a / o <= 0)%Q.
Proof.
  intros Ha Ho.
  assert (a / o == - (a / - o))%Q as -> by (field; intros E; rewrite E in Ho; lra).
  assert (0 <= a / - o)%Q; [|lra].
  apply Qle_shift_div_l; lra.
Qed.

(** X15.  [check_data_drift] never reports a drift when the mean of the
    older predictions is zero or negative, however far the mean of the
    recent ones is and whatever it is, a number, an infinity or [nan]: the
    distance of the two means is divided by the older mean itself, not by
    its absolute value, and the score is 0 or below, or undefined.  This
    holds of the means as they are computed, whatever the way. *)
Theorem no_drift_for_nonpositive_older_mean (mean : list pyfloat -> pyfloat)
    (recent older : list PredictionRecord.t) (o : Q) :
  recent <> [] -> older <> [] ->
  mean (predictions older) = Fin o ->
  (o <= 0)%Q ->
  exists score,
    check_data_drift_with mean (inr recent) (inr older) =
      (DriftReport false score (mean (predictions recent)) (Fin o) (Fin 0.1),
       []) /\
    PyFloat.gt score (Fin 0) = false /\
    ((o == 0)%Q -> score = Fin 0).
Proof.
  intros Hr Ho Hmo Hle. unfold check_data_drift_with.
  destruct recent as [|r0 recent]; [done|]. destruct older as [|o0 older]; [done|].
  rewrite Hmo. generalize (mean (predictions (r0 :: recent))). intros rm.
  unfold pyfloat_ne, PyFloat.eqb.
  destruct (Qeq_bool o 0) eqn:E; cbn [negb].
  - eexists. split; [reflexivity|]. done.
  - assert (~ (o == 0)%Q) as Hne.
    { intros H. apply Qeq_bool_iff in H. by rewrite H in E. }
    assert (o < 0)%Q as Hlt
      by (apply Qle_lteq in Hle as [H|H]; [done|by rewrite H in Hne]).
    assert (PyFloat.Qpositive o = false) as Hpos.
    { unfold PyFloat.Qpositive. destruct (PyFloat.Qlt_bool 0 o) eqn:Eb; [|done].
      apply Qlt_bool_iff in Eb. lra. }
    assert (forall a, (0 <= a)%Q ->
              PyFloat.Qlt_bool 0.1 (a / o) = false /\
              PyFloat.Qlt_bool 0 (a / o) = false) as Hq.
    { intros a Ha. pose proof (div_by_negative_nonpos _ _ Ha Hlt) as Hd.
      split.
      - destruct (PyFloat.Qlt_bool 0.1 (a / o)) eqn:Eb; [|done].
        apply Qlt_bool_iff in Eb. lra.
      - destruct (PyFloat.Qlt_bool 0 (a / o)) eqn:Eb; [|done].
        apply Qlt_bool_iff in Eb. lra. }
    destruct rm as [r| | |]; cbn -[Qabs Qplus Qopp Qdiv];
      unfold PyFloat.Qzero; rewrite ?E, ?Hpos; cbn -[Qabs Qplus Qopp Qdiv].
    + destruct (Hq (Qabs (r + - o)) (Qabs_nonneg _)) as [H1 H2].
      rewrite H1. eexists. split; [reflexivity|]. split; [exact H2|done].
    + eexists. split; [reflexivity|]. done.
    + eexists. split; [reflexivity|]. done.
    + eexists. split; [reflexivity|]. done.
Qed.

(** The older predictions were -2 and the recent ones are 3: no drift. *)
Lemma no_drift_for_nonpositive_older_mean_witness :
  exists score,
    check_data_drift (inr [row_with_prediction (Fin 3)])
                     (inr [row_with_prediction (Fin (-2))]) =
      (DriftReport false score
         (DataFrame.mean (predictions [row_with_prediction (Fin 3)]))
         (Fin ((-2 + 0) / 1)) (Fin 0.1), []) /\
    PyFloat.gt score (Fin 0) = false /\
    (((-2 + 0) / 1 == 0)%Q -> score = Fin 0).
Proof.
  apply (no_drift_for_nonpositive_older_mean DataFrame.mean
           [row_with_prediction (Fin 3)] [row_with_prediction (Fin (-2))]);
    try done.
Defined.

Variable Aggregates : Type.
Variable aggregate : list PredictionRecord.t -> Aggregates.

(** X16.  The health that the monitor reports follows from two facts: the
    number of rows of the last day, counted as 0 when the database cannot
    be read, and whether a drift was detected.  The score is 100 minus 30
    without any row or 10 with fewer than 10 rows, minus 20 with a drift;
    the status is healthy exactly with at least one row and no drift,
    critical exactly with no row and a drift, and warning otherwise.  A
    database that cannot be read is reported as "No recent predictions",
    never as an error. *)
Theorem model_health_status (now : nat)
    (day_df recent_df older_df : exn + list PredictionRecord.t) :
  let report :=
    (get_model_health aggregate now day_df recent_df older_df).1 in
  let total := if day_df is inr df then length df else 0%nat in
  let drift := get_drift_detected (check_data_drift recent_df older_df).1 in
  health_score report =
    (100 - (if Nat.eqb total 0 then 30 else if Nat.ltb total 10 then 10 else 0)
         - (if drift then 20 else 0))%Z /\
  (status report = "healthy" <-> (1 <= total)%nat /\ drift = false) /\
  (status report = "critical" <-> total = 0%nat /\ drift = true) /\
  (status report = "healthy" \/ status report = "warning" \/
   status report = "critical") /\
  (In "No recent predictions" (issues report) <-> total = 0%nat) /\
  (In "Low prediction volume" (issues report) <->
   (1 <= total)%nat /\ (total < 10)%nat) /\
  (In "Data drift detected" (issues report) <-> drift = true) /\
  status report <> "error".
Proof.
  unfold get_model_health, get_prediction_stats.
  destruct (check_data_drift recent_df older_df) as [d l2]. cbn [fst].
  destruct day_df as [e|[|row df]]; cbn [get_total_predictions length Nat.eqb].
  - destruct (get_drift_detected d); cbn -[Nat.ltb];
      intuition (try discriminate; try lia; auto).
  - destruct (get_drift_detected d); cbn -[Nat.ltb];
      intuition (try discriminate; try lia; auto).
  - destruct (Nat.ltb_spec (S (length df)) 10) as [Hlt|Hge];
      destruct (get_drift_detected d); cbn;
      intuition (try discriminate; try lia; auto).
Qed.

End Monitor.

(** ** The response and the state of the process *)

Section Independence.

Variable self : MLModelService.

Lemma predict_result_independent features w1 w2 :
  (predict self features w1).1 = (predict self features w2).1.
Proof.
  unfold predict, try_except, bind, lift, ret, raise, timed, log_prediction,
    prediction_counter_inc, sqlite3_connect, cursor_execute_insert,
    conn_commit, datetime_now, logger_info, logger_error.
  destruct w1 as [[rws1 nid1 flt1] lg1 mt1 ck1].
  destruct w2 as [[rws2 nid2 flt2] lg2 mt2 ck2]. cbn.
  destruct (model self) as [m|]; [|done].
  destruct (preprocess_input self features) as [e|X]; [done|]. cbn.
  destruct (model_predict m X) as [e|[|y ys]];
    destruct mt1 as [mt1|], mt2 as [mt2|]; cbn; try done;
    destruct flt1 as [[]|], flt2 as [[]|]; cbn; done.
Qed.

(** X17.  What [POST /predict] answers does not depend on the state of the
    process: with the same service and the same body, whatever the
    prediction log and its faults, the metrics, the operational log and
    the clock, the status is the same, and so are the violations of a 422,
    the detail of a 500, and the prediction, the interval and the version
    of a 200; only the timestamp differs. *)
Theorem predict_response_independent_of_state
    (body : gmap string pyfloat) (w1 w2 : World) :
  match (post_predict self body w1).1, (post_predict self body w2).1 with
  | Http200 r1, Http200 r2 =>
      PredictionResponse.prediction r1 = PredictionResponse.prediction r2 /\
      PredictionResponse.confidence_interval r1 =
        PredictionResponse.confidence_interval r2 /\
      PredictionResponse.model_version r1 = PredictionResponse.model_version r2
  | Http422 errs1, Http422 errs2 => errs1 = errs2
  | HttpError c1 d1, HttpError c2 d2 => c1 = c2 /\ d1 = d2
  | _, _ => False
  end.
Proof.
  destruct (HousingFeatures_init body) as [errs|f] eqn:Hf.
  { unfold post_predict. by rewrite Hf. }
  rewrite !(post_predict_of_predict _ _ _ _ Hf).
  pose proof (predict_result_independent f w1 w2) as H.
  destruct (predict self f w1) as [[e1|y1] w1'],
           (predict self f w2) as [[e2|y2] w2']; cbn in *; try done.
  - by injection H as ->.
  - injection H as ->. by destruct (PyFloat.isfinite y2).
Qed.

End Independence.

(** ** The errors of a rejection and the record of an acceptance *)

Section ValidationShape.

Implicit Types (body : gmap string pyfloat) (fi : Pydantic.FieldInfo).

Lemma violated_names fi body e :
  In fi HousingFeatures_fields ->
  In e (violated fi body) -> e.1 = Pydantic.name fi.
Proof.
  intros Hfi. unfold violated.
  destruct (body !! Pydantic.name fi) as [v|].
  - rewrite !in_app_iff.
    destruct (PyFloat.ge v _), (PyFloat.le v _); cbn;
      repeat (destruct Hfi as [<-|Hfi]; [cbn|]); try destruct Hfi;
      try (unfold validate_ave_occup; destruct (PyFloat.le v (Fin 0)); cbn);
      intuition (subst; done).
  - cbn. intuition (subst; done).
Qed.

Lemma first_violations_sublist body (fs : list Pydantic.FieldInfo) :
  Forall (fun fi => In fi HousingFeatures_fields) fs ->
  map fst (flat_map (fun fi => take 1 (violated fi body)) fs)
    `sublist_of` map Pydantic.name fs.
Proof.
  induction 1 as [|fi fs Hfi _ IH]; [done|]. cbn [flat_map map].
  rewrite map_app.
  destruct (violated fi body) as [|e rest] eqn:Hv; cbn.
  - by apply sublist_cons.
  - rewrite (violated_names fi body e Hfi) by (rewrite Hv; by left).
    by apply sublist_skip.
Qed.

(** X18.  The violations of a rejected request name fields of the schema,
    each field at most once, in the order of their declaration: there are
    at least one and at most 8 of them. *)
Theorem rejection_names_each_field_once body errs :
  HousingFeatures_init body = inl errs ->
  map fst errs `sublist_of` map Pydantic.name HousingFeatures_fields /\
  NoDup (map fst errs) /\
  (1 <= length errs <= 8)%nat.
Proof.
  intros He. pose proof (HousingFeatures_init_cases body) as Hc.
  rewrite He in Hc. destruct Hc as [-> Hne].
  pose proof (first_violations_sublist body _ fields_In) as Hsub.
  fold (first_violations body) in Hsub.
  split; [done|]. split.
  - eapply sublist_NoDup; [|exact Hsub].
    apply (bool_decide_unpack _). by vm_compute.
  - apply sublist_length in Hsub. rewrite !length_map in Hsub. cbn in Hsub.
    split; [|done]. destruct (first_violations body); [done|cbn; lia].
Qed.

(** X19.  The record of an accepted request holds the submitted values of
    the 8 fields; members of the body with other names are ignored; and
    the dictionary of the record, submitted again, is accepted and gives
    the same record. *)
Theorem accepted_record_round_trip body features :
  HousingFeatures_init body = inr features ->
  Forall (fun kv => body !! kv.1 = Some kv.2) (HousingFeatures_dict features) /\
  HousingFeatures_init (list_to_map (HousingFeatures_dict features)) =
    inr features /\
  (forall k v,
     ~ In k (map Pydantic.name HousingFeatures_fields) ->
     HousingFeatures_init (<[k := v]> body) = inr features).
Proof.
  intros Hf. pose proof (HousingFeatures_init_cases body) as Hc.
  rewrite Hf in Hc. unfold HousingFeatures_fields in Hc. cbn [map] in Hc.
  injection Hc as H1 H2 H3 H4 H5 H6 H7 H8.
  assert (forall fi v body',
            In fi HousingFeatures_fields ->
            Pydantic.validate fi body = inr v ->
            body' !! Pydantic.name fi = Some v ->
            Pydantic.validate fi body' = inr v) as Hmove.
  { intros fi v body' Hfi Hv Hb. apply validate_inr_iff in Hv as [_ Hr]; [|done].
    by apply validate_inr_iff. }
  assert (forall body',
            Forall (fun kv => body' !! kv.1 = Some kv.2)
                   (HousingFeatures_dict features) ->
            HousingFeatures_init body' = inr features) as Hsame.
  { intros body' Hall. unfold HousingFeatures_dict in Hall.
    rewrite !Forall_cons in Hall. cbn in Hall.
    destruct Hall as (B1 & B2 & B3 & B4 & B5 & B6 & B7 & B8 & _).
    unfold HousingFeatures_init, HousingFeatures_fields. cbn [map].
    rewrite (Hmove MedInc_field _ body' ltac:(cbn; tauto) H1 B1),
      (Hmove HouseAge_field _ body' ltac:(cbn; tauto) H2 B2),
      (Hmove AveRooms_field _ body' ltac:(cbn; tauto) H3 B3),
      (Hmove AveBedrms_field _ body' ltac:(cbn; tauto) H4 B4),
      (Hmove Population_field _ body' ltac:(cbn; tauto) H5 B5),
      (Hmove AveOccup_field _ body' ltac:(cbn; tauto) H6 B6),
      (Hmove Latitude_field _ body' ltac:(cbn; tauto) H7 B7),
      (Hmove Longitude_field _ body' ltac:(cbn; tauto) H8 B8).
    by destruct features. }
  assert (Forall (fun kv => body !! kv.1 = Some kv.2)
                 (HousingFeatures_dict features)) as Hbody.
  { apply validate_inr_iff in H1 as [? _], H2 as [? _], H3 as [? _],
      H4 as [? _], H5 as [? _], H6 as [? _], H7 as [? _], H8 as [? _];
      try (cbn; tauto).
    unfold HousingFeatures_dict. by repeat constructor. }
  split; [done|]. split.
  - apply Hsame. unfold HousingFeatures_dict. cbn.
    repeat (apply Forall_cons_2; [by simplify_map_eq|]). apply Forall_nil_2.
  - intros k v Hk. apply Hsame.
    unfold HousingFeatures_dict in *. rewrite !Forall_cons in Hbody.
    cbn in Hbody, Hk.
    destruct Hbody as (B1 & B2 & B3 & B4 & B5 & B6 & B7 & B8 & _).
    repeat (apply Forall_cons_2;
            [cbn; rewrite lookup_insert_ne; [done|intros ->; intuition]|]).
    apply Forall_nil_2.
Qed.

End ValidationShape.

(** ** Instances of the properties above *)

(** With a record that has no household member, the quotient that is an
    infinity is replaced by the mean of the other one. *)
Lemma preprocess_data_fills_gaps_witness :
  exists X',
    preprocess_data (housing_frame regular_and_degenerate) [] = inr (X', []) /\
    In ("population_per_household",
        fill_gaps (DataFrame.truediv [Fin 1000; Fin 1000] [Fin 3; Fin 0])) X' /\
    fill_gaps (DataFrame.truediv [Fin 1000; Fin 1000] [Fin 3; Fin 0]) =
      [Fin (1000 / 3); Fin ((1000 / 3 + 0) / 1)].
Proof.
  eexists. split; [reflexivity|]. split; [|reflexivity].
  destruct (preprocess_data_fills_gaps
              (housing_frame regular_and_degenerate) [] _ [] eq_refl)
    as (_ & _ & rooms & occup & bedrms & population &
        _ & [= <-] & _ & [= <-] & _ & _ & H).
  exact H.
Defined.

Lemma training_rows_are_serving_rows_witness :
  exists X',
    preprocess_data (housing_frame [canonical_features]) [] = inr (X', []) /\
    map fst X' = FEATURE_NAMES /\
    DataFrame.values X' = map raw_and_ratios [canonical_features] /\
    DataFrame.values X' =
      flat_map (fun x => DataFrame.values (engineer_features x))
        [canonical_features].
Proof.
  apply (training_rows_are_serving_rows [canonical_features] []).
  repeat constructor.
Defined.

Lemma rejection_names_each_field_once_witness :
  exists errs,
    HousingFeatures_init two_faults_input = inl errs /\
    map fst errs `sublist_of` map Pydantic.name HousingFeatures_fields /\
    NoDup (map fst errs) /\
    (1 <= length errs <= 8)%nat.
Proof.
  eexists. split; [reflexivity|].
  eapply (rejection_names_each_field_once two_faults_input). reflexivity.
Defined.

Lemma accepted_record_round_trip_witness :
  Forall (fun kv => canonical_input !! kv.1 = Some kv.2)
         (HousingFeatures_dict canonical_features) /\
  HousingFeatures_init (list_to_map (HousingFeatures_dict canonical_features)) =
    inr canonical_features /\
  (forall k v,
     ~ In k (map Pydantic.name HousingFeatures_fields) ->
     HousingFeatures_init (<[k := v]> canonical_input) = inr canonical_features).
Proof.
  apply (accepted_record_round_trip canonical_input canonical_features).
  reflexivity.
Defined.
